(** * Screen-reader facade and Android JNI bridge of diablo-access

    A shallow embedding of [Source/utils/screen_reader.cpp] and
    [Source/utils/android_accessibility.cpp].  Process-wide variables are
    fields of one [State] record; every function is a computation in a small
    monad that threads the state, collects the calls made to the outside
    world in a trace, and can stop abnormally at a null dereference. *)

From Stdlib Require Import ZArith SpecFloat.
From stdpp Require Import base tactics option list gmap strings.

Local Open Scope Z_scope.
Local Open Scope string_scope.
Local Open Scope list_scope.

(** ** Data of the JNI boundary *)

(** A [jmethodID] or [jclass] held by the C++ code is a pointer; the null
    pointer is [None], a live handle is [Some] of an opaque identity. *)
Definition jmethodID : Type := positive.
Definition jclass : Type := positive.
Definition JavaVM : Type := positive.
Definition tid : Type := positive.

Definition jboolean : Type := Z.
Definition jint : Type := Z.
Definition jlong : Type := Z.
Definition jfloat : Type := spec_float.
Definition jstring : Type := string.

Definition JNI_FALSE : jboolean := 0.
Definition JNI_TRUE : jboolean := 1.
Definition JNI_VERSION_1_6 : jint := 65542.

Inductive jvalue : Type :=
| JString (s : jstring)
| JNull
| JBoolean (b : jboolean)
| JInt (i : jint)
| JFloat (f : jfloat)
| JLong (l : jlong).

(** What the managed runtime answers on the calling thread.  The C++ code
    only forwards to these entry points, so they are oracles. *)
Record JNIEnv : Type := mkJNIEnv {
  FindClass : string -> option jclass;
  GetStaticMethodID : jclass -> string -> string -> option jmethodID;
  CallStaticBooleanMethod : option jclass -> option jmethodID -> jboolean;
  CallStaticIntMethod : option jclass -> option jmethodID -> list jvalue -> jint
}.

(** The thread a bridge operation runs on: its identity, whether
    [AttachCurrentThread] would return [JNI_OK] for it, and the environment
    the runtime hands to it. *)
Record Ctx : Type := mkCtx {
  self : tid;
  attach_ok : bool;
  jni : JNIEnv
}.

(** ** Data of the desktop back ends *)

Definition SPDConnection : Type := positive.
Definition wstring : Type := list N.

Inductive SPDConnectionMode : Type := SPD_MODE_SINGLE | SPD_MODE_THREADED.
Inductive SPDPriority : Type :=
  SPD_IMPORTANT | SPD_MESSAGE | SPD_TEXT | SPD_NOTIFICATION | SPD_PROGRESS.

(** Build-time selection of the back end ([#ifdef _WIN32], [__ANDROID__],
    otherwise Speech Dispatcher). *)
Inductive Platform : Type := Win32 | Android | Linux.

(** Helpers of the host that are not part of these files: the UTF-16
    conversion of [utils/file_util.h] (null on failure), the result of
    [spd_open], and the calling thread. *)
Record Host : Type := mkHost {
  ToWideChar : string -> option wstring;
  spd_open : string -> string -> option string -> SPDConnectionMode ->
             option SPDConnection;
  thread : Ctx
}.

(** ** String views *)

(** A [std::string_view] is a pointer and a size.  [view_chars] are the
    [size()] characters of the view.  [data_c_str] is what a C interface
    reads at [data()]: [None] for a null pointer, otherwise the bytes from
    the pointer up to the first NUL in memory, which for a view that is not
    NUL-terminated at its end lies beyond the view. *)
Record string_view : Type := mk_string_view {
  view_chars : string;
  data_c_str : option string
}.

(** A [const char *] read up to its first NUL, as [c_str()] and [data()]
    of a [std::string] are consumed by C interfaces. *)
Fixpoint c_str (s : string) : string :=
  match s with
  | EmptyString => EmptyString
  | String a s' => if Ascii.eqb a Ascii.zero then EmptyString
                   else String a (c_str s')
  end.

(** The implicit conversion of a [std::string], whose buffer ends in a
    NUL, to a [std::string_view]. *)
Definition view_of_string (s : string) : string_view :=
  mk_string_view s (Some (c_str s)).
Coercion view_of_string : string >-> string_view.

(** ** Calls and events *)

(** The five operations of the Android bridge with their arguments. *)
Inductive Call : Type :=
| CIsAndroidAccessibilityEnabled
| CSpeakAndroidText (text : string_view) (force : bool)
| CStopAndroidSpeech
| CIsAndroidTTSReady
| CHandleAndroidGesture (action : Z) (x y : jfloat) (time : Z).

Inductive Event : Type :=
| Enter (k : Call)
| EnterInitializeJNIMethods
| LeaveInitializeJNIMethods (ok : bool)
| EvGetEnv (t : tid) (ok : bool)
| EvAttachCurrentThread (t : tid) (ok : bool)
| EvDetachCurrentThread (t : tid)
| EvFindClass (name : string) (r : option jclass)
| EvGetStaticMethodID (c : jclass) (name sig : string) (r : option jmethodID)
| EvNewStringUTF (utf : option string)
| EvDeleteLocalRef (ref : option jstring)
| EvCallStaticBooleanMethod (c : option jclass) (m : option jmethodID)
                            (r : jboolean)
| EvCallStaticVoidMethod (c : option jclass) (m : option jmethodID)
                         (args : list jvalue)
| EvCallStaticIntMethod (c : option jclass) (m : option jmethodID)
                        (args : list jvalue) (r : jint)
| EvTolk_Load
| EvTolk_Unload
| EvTolk_Output (w : wstring) (interrupt : bool)
| EvSpd_open (client connection : string) (user : option string)
             (mode : SPDConnectionMode) (r : option SPDConnection)
| EvSpd_close (c : option SPDConnection)
| EvSpd_say (c : option SPDConnection) (prio : SPDPriority) (text : string).

(** ** Process state *)

Record State : Type := mkState {
  g_isScreenReaderEnabled : option jmethodID;
  g_speak : option jmethodID;
  g_stop : option jmethodID;
  g_isReady : option jmethodID;
  g_handleGesture : option jmethodID;
  g_jvm : option JavaVM;
  (* threads currently attached to the managed runtime *)
  attached : gset tid;
  (* [static std::string SpokenText] of [SpeakText] *)
  SpokenText : string;
  (* [SPDConnection *Speechd] *)
  Speechd : option SPDConnection
}.

Definition set_g_isScreenReaderEnabled (v : option jmethodID) (s : State) :=
  mkState v (g_speak s) (g_stop s) (g_isReady s) (g_handleGesture s)
          (g_jvm s) (attached s) (SpokenText s) (Speechd s).
Definition set_g_speak (v : option jmethodID) (s : State) :=
  mkState (g_isScreenReaderEnabled s) v (g_stop s) (g_isReady s)
          (g_handleGesture s) (g_jvm s) (attached s) (SpokenText s) (Speechd s).
Definition set_g_stop (v : option jmethodID) (s : State) :=
  mkState (g_isScreenReaderEnabled s) (g_speak s) v (g_isReady s)
          (g_handleGesture s) (g_jvm s) (attached s) (SpokenText s) (Speechd s).
Definition set_g_isReady (v : option jmethodID) (s : State) :=
  mkState (g_isScreenReaderEnabled s) (g_speak s) (g_stop s) v
          (g_handleGesture s) (g_jvm s) (attached s) (SpokenText s) (Speechd s).
Definition set_g_handleGesture (v : option jmethodID) (s : State) :=
  mkState (g_isScreenReaderEnabled s) (g_speak s) (g_stop s) (g_isReady s) v
          (g_jvm s) (attached s) (SpokenText s) (Speechd s).
Definition set_g_jvm (v : option JavaVM) (s : State) :=
  mkState (g_isScreenReaderEnabled s) (g_speak s) (g_stop s) (g_isReady s)
          (g_handleGesture s) v (attached s) (SpokenText s) (Speechd s).
Definition set_attached (v : gset tid) (s : State) :=
  mkState (g_isScreenReaderEnabled s) (g_speak s) (g_stop s) (g_isReady s)
          (g_handleGesture s) (g_jvm s) v (SpokenText s) (Speechd s).
Definition set_SpokenText (v : string) (s : State) :=
  mkState (g_isScreenReaderEnabled s) (g_speak s) (g_stop s) (g_isReady s)
          (g_handleGesture s) (g_jvm s) (attached s) v (Speechd s).
Definition set_Speechd (v : option SPDConnection) (s : State) :=
  mkState (g_isScreenReaderEnabled s) (g_speak s) (g_stop s) (g_isReady s)
          (g_handleGesture s) (g_jvm s) (attached s) (SpokenText s) v.

(** The state when the process starts: every static pointer is null, the
    static string is empty, and the runtime already knows the threads [att]. *)
Definition process_start (att : gset tid) : State :=
  mkState None None None None None None att EmptyString None.

(** ** The monad *)

Inductive Res (A : Type) : Type :=
| Ok (a : A) (st : State) (tr : list Event)
| Crash (st : State) (tr : list Event).
Arguments Ok {A} a st tr.
Arguments Crash {A} st tr.

Definition M (A : Type) : Type := State -> Res A.

Definition trace {A} (r : Res A) : list Event :=
  match r with Ok _ _ tr => tr | Crash _ tr => tr end.
Definition state_of {A} (r : Res A) : State :=
  match r with Ok _ st _ => st | Crash st _ => st end.
Definition retval {A} (r : Res A) : option A :=
  match r with Ok a _ _ => Some a | Crash _ _ => None end.

#[global] Instance M_ret : MRet M := fun A a st => Ok a st [].
#[global] Instance M_bind : MBind M := fun A B f m st =>
  match m st with
  | Ok a st1 tr1 =>
      match f a st1 with
      | Ok b st2 tr2 => Ok b st2 (tr1 ++ tr2)
      | Crash st2 tr2 => Crash st2 (tr1 ++ tr2)
      end
  | Crash st1 tr1 => Crash st1 tr1
  end.

Definition gets {A} (f : State -> A) : M A := fun st => Ok (f st) st [].
Definition modify (f : State -> State) : M unit := fun st => Ok tt (f st) [].
Definition emit (e : Event) : M unit := fun st => Ok tt st [e].
Definition crash {A} : M A := fun st => Crash st [].
Definition when (b : bool) (m : M unit) : M unit := if b then m else mret tt.

(** Dereferencing a pointer: a null pointer stops the computation. *)
Definition deref {A} (p : option A) : M A :=
  match p with Some a => mret a | None => crash end.

(** ** The managed runtime as seen through [g_jvm]

    [GetEnv] answers [JNI_OK] exactly for a thread that is attached;
    [Some env] stands for [JNI_OK] with the environment written through the
    out-parameter, [None] for any other return code. *)

Definition JavaVM_GetEnv (vm : option JavaVM) (c : Ctx) : M (option JNIEnv) :=
  _ ← deref vm;
  att ← gets attached;
  if decide (self c ∈ att)
  then emit (EvGetEnv (self c) true);; mret (Some (jni c))
  else emit (EvGetEnv (self c) false);; mret None.

Definition JavaVM_AttachCurrentThread (vm : option JavaVM) (c : Ctx)
  : M (option JNIEnv) :=
  _ ← deref vm;
  emit (EvAttachCurrentThread (self c) (attach_ok c));;
  if attach_ok c
  then modify (fun s => set_attached (attached s ∪ {[self c]}) s);;
       mret (Some (jni c))
  else mret None.

Definition JavaVM_DetachCurrentThread (vm : option JavaVM) (c : Ctx) : M unit :=
  _ ← deref vm;
  emit (EvDetachCurrentThread (self c));;
  modify (fun s => set_attached (attached s ∖ {[self c]}) s).

(** Calls through a [JNIEnv], each one recorded in the trace. *)

Definition jFindClass (env : JNIEnv) (name : string) : M (option jclass) :=
  let r := FindClass env name in
  emit (EvFindClass name r);; mret r.

Definition jGetStaticMethodID (env : JNIEnv) (c : jclass) (name sig : string)
  : M (option jmethodID) :=
  let r := GetStaticMethodID env c name sig in
  emit (EvGetStaticMethodID c name sig r);; mret r.

Definition jCallStaticBooleanMethod (env : JNIEnv) (c : option jclass)
    (m : option jmethodID) : M jboolean :=
  let r := CallStaticBooleanMethod env c m in
  emit (EvCallStaticBooleanMethod c m r);; mret r.

Definition jCallStaticVoidMethod (env : JNIEnv) (c : option jclass)
    (m : option jmethodID) (args : list jvalue) : M unit :=
  emit (EvCallStaticVoidMethod c m args).

Definition jCallStaticIntMethod (env : JNIEnv) (c : option jclass)
    (m : option jmethodID) (args : list jvalue) : M jint :=
  let r := CallStaticIntMethod env c m args in
  emit (EvCallStaticIntMethod c m args r);; mret r.

(** [NewStringUTF] of a C string gives a string with those characters; of
    a null pointer it gives null, as the Android runtimes do. *)
Definition jNewStringUTF (env : JNIEnv) (utf : option string)
  : M (option jstring) :=
  emit (EvNewStringUTF utf);; mret utf.

Definition jDeleteLocalRef (env : JNIEnv) (ref : option jstring) : M unit :=
  emit (EvDeleteLocalRef ref).

(** A [jstring] variable as an argument of a managed call. *)
Definition jobject_of (ref : option jstring) : jvalue :=
  match ref with Some s => JString s | None => JNull end.

Definition is_null {A} (p : option A) : bool :=
  match p with None => true | Some _ => false end.

(** ** android_accessibility.cpp *)

Definition AccessibilityManager_class : string :=
  "org/diasurgical/devilutionx/AccessibilityManager".
Definition AndroidTextToSpeech_class : string :=
  "org/diasurgical/devilutionx/AndroidTextToSpeech".
Definition GestureDetector_class : string :=
  "org/diasurgical/devilutionx/GestureDetector".

Definition GESTURE_NONE : Z := 0.
Definition GESTURE_SWIPE_LEFT : Z := 1.
Definition GESTURE_SWIPE_RIGHT : Z := 2.
Definition GESTURE_DOUBLE_TAP : Z := 3.

(** [static bool InitializeJNIMethods(JNIEnv *env)].  The entry and the
    returned value are recorded in the trace. *)
Definition InitializeJNIMethods_body (env : JNIEnv) : M bool :=
  accessibilityManagerClass ← jFindClass env AccessibilityManager_class;
  match accessibilityManagerClass with
  | None => mret false
  | Some amc =>
    m ← jGetStaticMethodID env amc "isScreenReaderEnabled" "()Z";
    modify (set_g_isScreenReaderEnabled m);;
    isScreenReaderEnabled ← gets g_isScreenReaderEnabled;
    if is_null isScreenReaderEnabled then mret false
    else
      ttsClass ← jFindClass env AndroidTextToSpeech_class;
      match ttsClass with
      | None => mret false
      | Some tc =>
        m ← jGetStaticMethodID env tc "speak" "(Ljava/lang/String;Z)V";
        modify (set_g_speak m);;
        m ← jGetStaticMethodID env tc "stop" "()V";
        modify (set_g_stop m);;
        m ← jGetStaticMethodID env tc "isReady" "()Z";
        modify (set_g_isReady m);;
        speak ← gets g_speak;
        stop ← gets g_stop;
        isReady ← gets g_isReady;
        if is_null speak || is_null stop || is_null isReady then mret false
        else
          gestureClass ← jFindClass env GestureDetector_class;
          match gestureClass with
          | None => mret false
          | Some gc =>
            m ← jGetStaticMethodID env gc "handleGesture" "(IFFJ)I";
            modify (set_g_handleGesture m);;
            handleGesture ← gets g_handleGesture;
            if is_null handleGesture then mret false
            else mret true
          end
      end
  end.

Definition InitializeJNIMethods (env : JNIEnv) : M bool :=
  emit EnterInitializeJNIMethods;;
  ok ← InitializeJNIMethods_body env;
  emit (LeaveInitializeJNIMethods ok);;
  mret ok.

(** The block under [// Get JNIEnv] that opens every bridge operation.
    [None] is its early return (attach failed); otherwise the environment
    and the local [attached] flag. *)
Definition GetJNIEnv (c : Ctx) : M (option (JNIEnv * bool)) :=
  vm ← gets g_jvm;
  r ← JavaVM_GetEnv vm c;
  match r with
  | Some env => mret (Some (env, false))
  | None =>
    vm ← gets g_jvm;
    r ← JavaVM_AttachCurrentThread vm c;
    match r with
    | None => mret None
    | Some env => mret (Some (env, true))
    end
  end.

(** [if (attached) g_jvm->DetachCurrentThread();] *)
Definition DetachIfAttached (attached_here : bool) (c : Ctx) : M unit :=
  when attached_here (vm ← gets g_jvm; JavaVM_DetachCurrentThread vm c).

Definition IsAndroidAccessibilityEnabled (c : Ctx) : M bool :=
  emit (Enter CIsAndroidAccessibilityEnabled);;
  r ← GetJNIEnv c;
  match r with
  | None => mret false
  | Some (env, attached_here) =>
    guard ← gets g_isScreenReaderEnabled;
    ok ← (if is_null guard then InitializeJNIMethods env else mret true);
    if negb ok then DetachIfAttached attached_here c;; mret false
    else
      cls ← jFindClass env AccessibilityManager_class;
      m ← gets g_isScreenReaderEnabled;
      result ← jCallStaticBooleanMethod env cls m;
      DetachIfAttached attached_here c;;
      mret (Z.eqb result JNI_TRUE)
  end.

Definition SpeakAndroidText (c : Ctx) (text : string_view) (force : bool)
  : M unit :=
  emit (Enter (CSpeakAndroidText text force));;
  r ← GetJNIEnv c;
  match r with
  | None => mret tt
  | Some (env, attached_here) =>
    guard ← gets g_speak;
    ok ← (if is_null guard then InitializeJNIMethods env else mret true);
    if negb ok then DetachIfAttached attached_here c;; mret tt
    else
      javaText ← jNewStringUTF env (data_c_str text);
      cls ← jFindClass env AndroidTextToSpeech_class;
      m ← gets g_speak;
      jCallStaticVoidMethod env cls m
        [jobject_of javaText;
         JBoolean (if force then JNI_TRUE else JNI_FALSE)];;
      jDeleteLocalRef env javaText;;
      DetachIfAttached attached_here c;;
      mret tt
  end.

Definition StopAndroidSpeech (c : Ctx) : M unit :=
  emit (Enter CStopAndroidSpeech);;
  r ← GetJNIEnv c;
  match r with
  | None => mret tt
  | Some (env, attached_here) =>
    guard ← gets g_stop;
    ok ← (if is_null guard then InitializeJNIMethods env else mret true);
    if negb ok then DetachIfAttached attached_here c;; mret tt
    else
      cls ← jFindClass env AndroidTextToSpeech_class;
      m ← gets g_stop;
      jCallStaticVoidMethod env cls m [];;
      DetachIfAttached attached_here c;;
      mret tt
  end.

Definition IsAndroidTTSReady (c : Ctx) : M bool :=
  emit (Enter CIsAndroidTTSReady);;
  r ← GetJNIEnv c;
  match r with
  | None => mret false
  | Some (env, attached_here) =>
    guard ← gets g_isReady;
    ok ← (if is_null guard then InitializeJNIMethods env else mret true);
    if negb ok then DetachIfAttached attached_here c;; mret false
    else
      cls ← jFindClass env AndroidTextToSpeech_class;
      m ← gets g_isReady;
      result ← jCallStaticBooleanMethod env cls m;
      DetachIfAttached attached_here c;;
      mret (Z.eqb result JNI_TRUE)
  end.

(** [int], [jint], [long] and [jlong] values are carried as integers; the
    casts between them keep the value. *)
Definition HandleAndroidGesture (c : Ctx) (action : Z) (x y : jfloat) (time : Z)
  : M Z :=
  emit (Enter (CHandleAndroidGesture action x y time));;
  r ← GetJNIEnv c;
  match r with
  | None => mret 0
  | Some (env, attached_here) =>
    guard ← gets g_handleGesture;
    ok ← (if is_null guard then InitializeJNIMethods env else mret true);
    if negb ok then DetachIfAttached attached_here c;; mret 0
    else
      cls ← jFindClass env GestureDetector_class;
      m ← gets g_handleGesture;
      result ← jCallStaticIntMethod env cls m
                 [JInt action; JFloat x; JFloat y; JLong time];
      DetachIfAttached attached_here c;;
      mret result
  end.

(** [JNI_OnLoad]: remembers the virtual machine. *)
Definition JNI_OnLoad (vm : JavaVM) : M jint :=
  modify (set_g_jvm (Some vm));;
  mret JNI_VERSION_1_6.

(** ** screen_reader.cpp *)

Definition InitializeScreenReader (p : Platform) (h : Host) : M unit :=
  match p with
  | Win32 => emit EvTolk_Load
  | Android => mret tt
  | Linux =>
    let r := spd_open h "DevilutionX" "DevilutionX" None SPD_MODE_SINGLE in
    emit (EvSpd_open "DevilutionX" "DevilutionX" None SPD_MODE_SINGLE r);;
    modify (set_Speechd r)
  end.

Definition ShutDownScreenReader (p : Platform) (h : Host) : M unit :=
  match p with
  | Win32 => emit EvTolk_Unload
  | Android => mret tt
  | Linux => conn ← gets Speechd; emit (EvSpd_close conn)
  end.

Definition SpeakText (p : Platform) (h : Host) (text : string) (force : bool)
  : M unit :=
  spoken ← gets SpokenText;
  if negb force && String.eqb spoken text then mret tt
  else
    modify (set_SpokenText text);;
    match p with
    | Win32 =>
      spoken ← gets SpokenText;
      match ToWideChar h spoken with
      | Some textUtf16 => emit (EvTolk_Output textUtf16 true)
      | None => mret tt
      end
    | Android =>
      spoken ← gets SpokenText;
      SpeakAndroidText (thread h) (view_of_string spoken) force
    | Linux =>
      conn ← gets Speechd;
      spoken ← gets SpokenText;
      emit (EvSpd_say conn SPD_TEXT (c_str spoken))
    end.

(** ** Vocabulary of the properties *)

(** The event with which [SpeakText] hands an utterance to its back end:
    [Tolk_Output], [spd_say], or the entry of [SpeakAndroidText]. *)
Definition is_speech_backend (e : Event) : bool :=
  match e with
  | EvTolk_Output _ _ | EvSpd_say _ _ _ | Enter (CSpeakAndroidText _ _) => true
  | _ => false
  end.

(** A managed method was invoked. *)
Definition is_java_call (e : Event) : bool :=
  match e with
  | EvCallStaticBooleanMethod _ _ _ | EvCallStaticVoidMethod _ _ _
  | EvCallStaticIntMethod _ _ _ _ => true
  | _ => false
  end.

(** The event belongs to handle resolution. *)
Definition is_resolution (e : Event) : bool :=
  match e with
  | EnterInitializeJNIMethods | LeaveInitializeJNIMethods _
  | EvGetStaticMethodID _ _ _ _ => true
  | _ => false
  end.

(** [InitializeJNIMethods] returned true. *)
Definition is_init_success (e : Event) : bool :=
  match e with LeaveInitializeJNIMethods true => true | _ => false end.

Definition is_attach (e : Event) : bool :=
  match e with EvAttachCurrentThread _ true => true | _ => false end.
Definition is_attach_attempt (e : Event) : bool :=
  match e with EvAttachCurrentThread _ _ => true | _ => false end.
Definition is_detach (e : Event) : bool :=
  match e with EvDetachCurrentThread _ => true | _ => false end.

Definition count (p : Event -> bool) (tr : list Event) : nat :=
  length (List.filter p tr).

(** Results of the bridge operations under one type. *)
Inductive Value : Type := VVoid | VBool (b : bool) | VInt (z : Z).

Definition run_call (k : Call) (c : Ctx) : M Value :=
  match k with
  | CIsAndroidAccessibilityEnabled =>
      b ← IsAndroidAccessibilityEnabled c; mret (VBool b)
  | CSpeakAndroidText text force =>
      SpeakAndroidText c text force;; mret VVoid
  | CStopAndroidSpeech => StopAndroidSpeech c;; mret VVoid
  | CIsAndroidTTSReady => b ← IsAndroidTTSReady c; mret (VBool b)
  | CHandleAndroidGesture action x y time =>
      z ← HandleAndroidGesture c action x y time; mret (VInt z)
  end.

(** A sequence of bridge calls, each on its own thread context. *)
Fixpoint run_calls (ks : list (Call * Ctx)) : M (list Value) :=
  match ks with
  | [] => mret []
  | (k, c) :: ks' =>
      v ← run_call k c; vs ← run_calls ks'; mret (v :: vs)
  end.

(** The cached handle that guards lazy initialisation in each operation. *)
Definition guard_of (k : Call) : State -> option jmethodID :=
  match k with
  | CIsAndroidAccessibilityEnabled => g_isScreenReaderEnabled
  | CSpeakAndroidText _ _ => g_speak
  | CStopAndroidSpeech => g_stop
  | CIsAndroidTTSReady => g_isReady
  | CHandleAndroidGesture _ _ _ _ => g_handleGesture
  end.

(** The value each operation returns on its failure paths. *)
Definition default_of (k : Call) : Value :=
  match k with
  | CIsAndroidAccessibilityEnabled | CIsAndroidTTSReady => VBool false
  | CSpeakAndroidText _ _ | CStopAndroidSpeech => VVoid
  | CHandleAndroidGesture _ _ _ _ => VInt 0
  end.

Definition all_resolved (st : State) : Prop :=
  is_Some (g_isScreenReaderEnabled st) /\ is_Some (g_speak st) /\
  is_Some (g_stop st) /\ is_Some (g_isReady st) /\
  is_Some (g_handleGesture st).

(** The handle in which [InitializeJNIMethods] stores the method called
    [name]. *)
Definition handle_named (name : string) (st : State) : option jmethodID :=
  if String.eqb name "isScreenReaderEnabled" then g_isScreenReaderEnabled st
  else if String.eqb name "speak" then g_speak st
  else if String.eqb name "stop" then g_stop st
  else if String.eqb name "isReady" then g_isReady st
  else if String.eqb name "handleGesture" then g_handleGesture st
  else None.

(** Every fixed class lookup and every fixed method lookup succeeds in
    [env]. *)
Definition resolves (env : JNIEnv) : Prop :=
  exists amc tc gc,
    FindClass env AccessibilityManager_class = Some amc /\
    FindClass env AndroidTextToSpeech_class = Some tc /\
    FindClass env GestureDetector_class = Some gc /\
    is_Some (GetStaticMethodID env amc "isScreenReaderEnabled" "()Z") /\
    is_Some (GetStaticMethodID env tc "speak" "(Ljava/lang/String;Z)V") /\
    is_Some (GetStaticMethodID env tc "stop" "()V") /\
    is_Some (GetStaticMethodID env tc "isReady" "()Z") /\
    is_Some (GetStaticMethodID env gc "handleGesture" "(IFFJ)I").

(** The thread cannot get an environment: it is not attached and
    [AttachCurrentThread] fails. *)
Definition attach_fails (c : Ctx) (st : State) : Prop :=
  (self c ∉ attached st) /\ attach_ok c = false.

(** The failure modes of a bridge call: no environment for the thread, or
    lazy initialisation is due and a lookup fails. *)
Definition fails (k : Call) (c : Ctx) (st : State) : Prop :=
  attach_fails c st \/ (guard_of k st = None /\ ~ resolves (jni c)).

(** The common shape of the five bridge operations; [tail] is what follows
    a successful initialisation. *)
Definition bridge {A} (k : Call) (guard : State -> option jmethodID) (dflt : A)
    (tail : JNIEnv -> bool -> M A) (c : Ctx) : M A :=
  emit (Enter k);;
  r ← GetJNIEnv c;
  match r with
  | None => mret dflt
  | Some (env, attached_here) =>
    g ← gets guard;
    ok ← (if is_null g then InitializeJNIMethods env else mret true);
    if negb ok then DetachIfAttached attached_here c;; mret dflt
    else tail env attached_here
  end.

(** ** Shapes of a bridge call *)

(** Fields that [InitializeJNIMethods] never writes. *)
Definition same_runtime (st st' : State) : Prop :=
  g_jvm st' = g_jvm st /\ attached st' = attached st /\
  SpokenText st' = SpokenText st /\ Speechd st' = Speechd st.

(** Calls into the managed runtime that follow initialisation. *)
Definition java_side (e : Event) : bool :=
  match e with
  | EvFindClass _ _ | EvNewStringUTF _ | EvDeleteLocalRef _
  | EvCallStaticBooleanMethod _ _ _ | EvCallStaticVoidMethod _ _ _
  | EvCallStaticIntMethod _ _ _ _ => true
  | _ => false
  end.

(** Lookups made by [InitializeJNIMethods]. *)
Definition lookup_side (e : Event) : bool :=
  match e with
  | EvFindClass _ _ | EvGetStaticMethodID _ _ _ _ => true
  | _ => false
  end.

(** Whether the call has to attach its thread. *)
Definition must_attach (c : Ctx) (st : State) : bool :=
  bool_decide (self c ∉ attached st).

Definition prologue (k : Call) (c : Ctx) (st : State) : list Event :=
  Enter k :: EvGetEnv (self c) (negb (must_attach c st)) ::
  (if must_attach c st then [EvAttachCurrentThread (self c) true] else []).

Definition epilogue (c : Ctx) (st : State) : list Event :=
  if must_attach c st then [EvDetachCurrentThread (self c)] else [].

(** The five ways a bridge call started in [st] on thread [c] can end. *)
Inductive outcome {A} (k : Call) (c : Ctx) (dflt : A) (st : State)
  : Res A -> Prop :=
| out_no_vm :
    g_jvm st = None ->
    outcome k c dflt st (Crash st [Enter k])
| out_attach_failed :
    is_Some (g_jvm st) -> attach_fails c st ->
    outcome k c dflt st
      (Ok dflt st [Enter k; EvGetEnv (self c) false;
                   EvAttachCurrentThread (self c) false])
| out_init_failed st' itr :
    is_Some (g_jvm st) -> ~ attach_fails c st ->
    guard_of k st = None -> ~ resolves (jni c) ->
    same_runtime st st' ->
    Forall (fun e => lookup_side e = true) itr ->
    (forall cl n s m, EvGetStaticMethodID cl n s (Some m) ∈ itr ->
                      handle_named n st' = Some m) ->
    outcome k c dflt st
      (Ok dflt st'
          (prologue k c st ++
           EnterInitializeJNIMethods :: itr ++
           LeaveInitializeJNIMethods false :: epilogue c st))
| out_init_called a st' itr jtr :
    is_Some (g_jvm st) -> ~ attach_fails c st ->
    guard_of k st = None -> resolves (jni c) ->
    same_runtime st st' -> all_resolved st' ->
    Forall (fun e => lookup_side e = true) itr ->
    Forall (fun e => java_side e = true) jtr ->
    Exists (fun e => is_java_call e = true) jtr ->
    outcome k c dflt st
      (Ok a st'
          (prologue k c st ++
           EnterInitializeJNIMethods :: itr ++
           LeaveInitializeJNIMethods true :: jtr ++ epilogue c st))
| out_called a jtr :
    is_Some (g_jvm st) -> ~ attach_fails c st ->
    is_Some (guard_of k st) ->
    Forall (fun e => java_side e = true) jtr ->
    Exists (fun e => is_java_call e = true) jtr ->
    outcome k c dflt st (Ok a st (prologue k c st ++ jtr ++ epilogue c st)).

(** What the code after a successful initialisation must do for the
    analysis of [bridge]: talk to the runtime, then detach if the call
    attached. *)
Definition tail_spec {A} (c : Ctx) (tail : JNIEnv -> bool -> M A) : Prop :=
  forall env att st, is_Some (g_jvm st) ->
    exists a jtr,
      tail env att st =
        Ok a (if att then set_attached (attached st ∖ {[self c]}) st else st)
             (jtr ++ if att then [EvDetachCurrentThread (self c)] else []) /\
      Forall (fun e => java_side e = true) jtr /\
      Exists (fun e => is_java_call e = true) jtr.

(** The state in which a bridge call ends, given the state [s] reached
    before the final detach. *)
Definition settle (c : Ctx) (att : bool) (s : State) : State :=
  if att then set_attached (attached s ∖ {[self c]}) s else s.

Definition map_res {A B} (f : A -> B) (r : Res A) : Res B :=
  match r with
  | Ok a st tr => Ok (f a) st tr
  | Crash st tr => Crash st tr
  end.

(** ** Sample environments *)

Definition env_good : JNIEnv :=
  mkJNIEnv
    (fun name =>
       if String.eqb name AccessibilityManager_class then Some 1%positive
       else if String.eqb name AndroidTextToSpeech_class then Some 2%positive
       else if String.eqb name GestureDetector_class then Some 3%positive
       else None)
    (fun c name _ =>
       if String.eqb name "isScreenReaderEnabled" then Some 11%positive
       else if String.eqb name "speak" then Some 12%positive
       else if String.eqb name "stop" then Some 13%positive
       else if String.eqb name "isReady" then Some 14%positive
       else if String.eqb name "handleGesture" then Some 15%positive
       else None)
    (fun _ _ => JNI_TRUE)
    (fun _ _ _ => GESTURE_NONE).

(** An environment whose class loader does not know [GestureDetector]. *)
Definition env_no_gesture : JNIEnv :=
  mkJNIEnv
    (fun name =>
       if String.eqb name GestureDetector_class then None
       else FindClass env_good name)
    (GetStaticMethodID env_good)
    (fun _ _ => JNI_TRUE)
    (fun _ _ _ => GESTURE_SWIPE_LEFT).

Definition loaded (att : gset tid) : State :=
  set_g_jvm (Some 1%positive) (process_start att).

Definition host_of (c : Ctx) : Host :=
  mkHost (fun s => if String.eqb s EmptyString then None
                   else Some [72%N; 105%N])
         (fun _ _ _ _ => Some 1%positive) c.

(** ** JNI entry points of android_accessibility.cpp *)

(** Width of the C [long] of the target: 32 bits on armeabi-v7a and x86,
    64 bits on arm64-v8a and x86_64. *)
Inductive ABI : Type := ILP32 | LP64.

Definition long_bits (abi : ABI) : Z :=
  match abi with ILP32 => 32 | LP64 => 64 end.

(** Conversion to a signed integer type of [w] bits (two's complement). *)
Definition to_signed (w : Z) (z : Z) : Z :=
  (z + 2 ^ (w - 1)) mod 2 ^ w - 2 ^ (w - 1).

(** [Java_..._AccessibilityManager_isScreenReaderEnabled] *)
Definition Java_org_diasurgical_devilutionx_AccessibilityManager_isScreenReaderEnabled
    (env : JNIEnv) : M jboolean :=
  mret JNI_FALSE.

(** [Java_..._AccessibilityManager_getAccessibilityServices] *)
Definition Java_org_diasurgical_devilutionx_AccessibilityManager_getAccessibilityServices
    (env : JNIEnv) : M (option jstring) :=
  jNewStringUTF env (Some EmptyString).

(** [Java_..._AndroidTextToSpeech_stop] *)
Definition Java_org_diasurgical_devilutionx_AndroidTextToSpeech_stop
    (c : Ctx) : M unit :=
  StopAndroidSpeech c.

(** [Java_..._AndroidTextToSpeech_isReady] *)
Definition Java_org_diasurgical_devilutionx_AndroidTextToSpeech_isReady
    (c : Ctx) : M jboolean :=
  ready ← IsAndroidTTSReady c;
  mret (if ready : bool then JNI_TRUE else JNI_FALSE).

(** [Java_..._GestureDetector_handleGesture].  [jint] and [int] have the
    same width; the [jlong] time stamp is narrowed to [long]. *)
Definition Java_org_diasurgical_devilutionx_GestureDetector_handleGesture
    (abi : ABI) (c : Ctx) (action : jint) (x y : jfloat) (time : jlong)
  : M jint :=
  HandleAndroidGesture c action x y (to_signed (long_bits abi) time).

(** Events of [Java_..._AndroidTextToSpeech_speak]: the two string
    functions it calls itself, and the events of the bridge call it makes. *)
Inductive NativeEvent : Type :=
| NvGetStringUTFChars (s : jstring) (r : option string)
| NvReleaseStringUTFChars (s : jstring) (utf : string)
| NvBridge (e : Event).

Inductive NRes (A : Type) : Type :=
| NOk (a : A) (st : State) (tr : list NativeEvent)
| NCrash (st : State) (tr : list NativeEvent).
Arguments NOk {A} a st tr.
Arguments NCrash {A} st tr.

Definition ntrace {A} (r : NRes A) : list NativeEvent :=
  match r with NOk _ _ tr => tr | NCrash _ tr => tr end.
Definition nstate_of {A} (r : NRes A) : State :=
  match r with NOk _ st _ => st | NCrash st _ => st end.

(** [Java_..._AndroidTextToSpeech_speak].  [text] is [None] for a null
    [jstring]; [GetStringUTFChars] is the runtime's answer, null when it
    cannot allocate.  The [const char *] becomes a [string_view] up to its
    first NUL. *)
Definition Java_org_diasurgical_devilutionx_AndroidTextToSpeech_speak
    (GetStringUTFChars : jstring -> option string) (c : Ctx)
    (text : option jstring) (force : jboolean) (st : State) : NRes unit :=
  match text with
  | None => NOk tt st []
  | Some t =>
    match GetStringUTFChars t with
    | None => NOk tt st [NvGetStringUTFChars t None]
    | Some textUtf8 =>
      match SpeakAndroidText c (c_str textUtf8) (Z.eqb force JNI_TRUE) st with
      | Ok _ st1 tr =>
          NOk tt st1
              (NvGetStringUTFChars t (Some textUtf8) ::
               map NvBridge tr ++ [NvReleaseStringUTFChars t textUtf8])
      | Crash st1 tr =>
          NCrash st1 (NvGetStringUTFChars t (Some textUtf8) ::
                      map NvBridge tr)
      end
    end
  end.

(** ** More vocabulary *)

(** The class whose static method an operation calls. *)
Definition managed_class (k : Call) : string :=
  match k with
  | CIsAndroidAccessibilityEnabled => AccessibilityManager_class
  | CSpeakAndroidText _ _ | CStopAndroidSpeech | CIsAndroidTTSReady =>
      AndroidTextToSpeech_class
  | CHandleAndroidGesture _ _ _ _ => GestureDetector_class
  end.

(** The arguments an operation passes to its managed method. *)
Definition managed_args (k : Call) : list jvalue :=
  match k with
  | CSpeakAndroidText text force =>
      [jobject_of (data_c_str text);
       JBoolean (if force then JNI_TRUE else JNI_FALSE)]
  | CHandleAndroidGesture action x y time =>
      [JInt action; JFloat x; JFloat y; JLong time]
  | _ => []
  end.

(** Method handle, arguments and returned integer of a managed call. *)
Definition call_method (e : Event) : option jmethodID :=
  match e with
  | EvCallStaticBooleanMethod _ m _ | EvCallStaticVoidMethod _ m _
  | EvCallStaticIntMethod _ m _ _ => m
  | _ => None
  end.

Definition call_args (e : Event) : list jvalue :=
  match e with
  | EvCallStaticVoidMethod _ _ args | EvCallStaticIntMethod _ _ args _ => args
  | _ => []
  end.

Definition call_class (e : Event) : option jclass :=
  match e with
  | EvCallStaticBooleanMethod c _ _ | EvCallStaticVoidMethod c _ _
  | EvCallStaticIntMethod c _ _ _ => c
  | _ => None
  end.

(** The value an operation returns after its managed call [e]. *)
Definition value_after (e : Event) : Value :=
  match e with
  | EvCallStaticBooleanMethod _ _ r => VBool (Z.eqb r JNI_TRUE)
  | EvCallStaticIntMethod _ _ _ r => VInt r
  | _ => VVoid
  end.

Definition is_new_string (e : Event) : bool :=
  match e with EvNewStringUTF _ => true | _ => false end.
Definition is_delete_ref (e : Event) : bool :=
  match e with EvDeleteLocalRef _ => true | _ => false end.
Definition is_get_env (e : Event) : bool :=
  match e with EvGetEnv _ _ => true | _ => false end.

(** What an operation does once it holds an environment and its handle:
    the calls it makes through [env] in state [st]. *)
Definition managed_part (k : Call) (env : JNIEnv) (st : State) : list Event :=
  let cls := FindClass env (managed_class k) in
  let m := guard_of k st in
  match k with
  | CIsAndroidAccessibilityEnabled | CIsAndroidTTSReady =>
      [EvFindClass (managed_class k) cls;
       EvCallStaticBooleanMethod cls m (CallStaticBooleanMethod env cls m)]
  | CSpeakAndroidText text force =>
      [EvNewStringUTF (data_c_str text);
       EvFindClass (managed_class k) cls;
       EvCallStaticVoidMethod cls m (managed_args k);
       EvDeleteLocalRef (data_c_str text)]
  | CStopAndroidSpeech =>
      [EvFindClass (managed_class k) cls;
       EvCallStaticVoidMethod cls m (managed_args k)]
  | CHandleAndroidGesture _ _ _ _ =>
      [EvFindClass (managed_class k) cls;
       EvCallStaticIntMethod cls m (managed_args k)
         (CallStaticIntMethod env cls m (managed_args k))]
  end.

Definition managed_result (k : Call) (env : JNIEnv) (st : State) : Value :=
  let cls := FindClass env (managed_class k) in
  let m := guard_of k st in
  match k with
  | CIsAndroidAccessibilityEnabled | CIsAndroidTTSReady =>
      VBool (Z.eqb (CallStaticBooleanMethod env cls m) JNI_TRUE)
  | CSpeakAndroidText _ _ | CStopAndroidSpeech => VVoid
  | CHandleAndroidGesture _ _ _ _ =>
      VInt (CallStaticIntMethod env cls m (managed_args k))
  end.

(** A bridge call from the point where it holds an environment:
    [att] tells whether the call attached the thread itself. *)
Definition finish (k : Call) (c : Ctx) (att : bool) (st1 : State)
  : Res Value :=
  let det := if att then [EvDetachCurrentThread (self c)] else [] in
  match guard_of k st1 with
  | Some _ =>
      Ok (managed_result k (jni c) st1) (settle c att st1)
         (managed_part k (jni c) st1 ++ det)
  | None =>
      match InitializeJNIMethods (jni c) st1 with
      | Ok true st2 itr =>
          Ok (managed_result k (jni c) st2) (settle c att st2)
             (itr ++ managed_part k (jni c) st2 ++ det)
      | Ok false st2 itr =>
          Ok (default_of k) (settle c att st2) (itr ++ det)
      | Crash st2 itr => Crash st2 itr
      end
  end.

Definition prepend {A} (pre : list Event) (r : Res A) : Res A :=
  match r with
  | Ok a st tr => Ok a st (pre ++ tr)
  | Crash st tr => Crash st (pre ++ tr)
  end.

(** A bridge call in closed form. *)
Definition call_summary (k : Call) (c : Ctx) (st : State) : Res Value :=
  match g_jvm st with
  | None => Crash st [Enter k]
  | Some _ =>
    if decide (self c ∈ attached st)
    then prepend [Enter k; EvGetEnv (self c) true] (finish k c false st)
    else if attach_ok c
    then prepend [Enter k; EvGetEnv (self c) false;
                  EvAttachCurrentThread (self c) true]
           (finish k c true (set_attached (attached st ∪ {[self c]}) st))
    else Ok (default_of k) st
            [Enter k; EvGetEnv (self c) false;
             EvAttachCurrentThread (self c) false]
  end.

(** The five characters [hello] of a buffer that holds [hello world] and
    a NUL: a view that is not NUL-terminated at its end. *)
Definition view_hello : string_view :=
  mk_string_view "hello" (Some "hello world").

(** A default-constructed view: no characters, null [data()]. *)
Definition view_default : string_view :=
  mk_string_view EmptyString None.

(** The environment of a thread whose class loader finds none of the
    three classes, as on a thread attached from native code. *)
Definition env_no_classes : JNIEnv :=
  mkJNIEnv (fun _ => None) (GetStaticMethodID env_good)
           (fun _ _ => JNI_TRUE) (fun _ _ _ => GESTURE_DOUBLE_TAP).

(** An environment whose managed methods answer with unusual values. *)
Definition env_odd : JNIEnv :=
  mkJNIEnv (FindClass env_good) (GetStaticMethodID env_good)
           (fun _ _ => 2) (fun _ _ _ => 42).

(** The detach a call makes at its end when it attached the thread. *)
Definition detach_events (c : Ctx) (att : bool) : list Event :=
  if att then [EvDetachCurrentThread (self c)] else [].

(** The state a call works in once it holds an environment. *)
Definition entered (c : Ctx) (st : State) : State :=
  if must_attach c st then set_attached (attached st ∪ {[self c]}) st else st.

Definition is_find_class (e : Event) : bool :=
  match e with EvFindClass _ _ => true | _ => false end.
Definition is_get_method (e : Event) : bool :=
  match e with EvGetStaticMethodID _ _ _ _ => true | _ => false end.

(** Whether a string is free of NUL characters. *)
Fixpoint NUL_free (s : string) : Prop :=
  match s with
  | EmptyString => True
  | String a s' => a <> Ascii.zero /\ NUL_free s'
  end.

(** [z] is [text] up to its first NUL. *)
Definition cut_at_NUL (text z : string) : Prop :=
  NUL_free z /\
  (NUL_free text -> z = text) /\
  (forall s rest,
     NUL_free s -> text = (s ++ String Ascii.zero rest)%string -> z = s).

(** Counting the events of an entry point. *)
Definition ncount (p : NativeEvent -> bool) (tr : list NativeEvent) : nat :=
  length (List.filter p tr).

Definition is_get_chars (e : NativeEvent) : bool :=
  match e with NvGetStringUTFChars _ (Some _) => true | _ => false end.
Definition is_release_chars (e : NativeEvent) : bool :=
  match e with NvReleaseStringUTFChars _ _ => true | _ => false end.

(** An environment that finds the classes but none of their methods. *)
Definition env_no_methods : JNIEnv :=
  mkJNIEnv (FindClass env_good) (fun _ _ _ => None)
           (fun _ _ => JNI_TRUE) (fun _ _ _ => GESTURE_NONE).

(** The state after a first initialisation that missed [GestureDetector]. *)
Definition st_half_ready : State :=
  state_of (InitializeJNIMethods env_no_gesture (loaded {[5%positive]})).

Definition st_ready : State :=
  state_of (InitializeJNIMethods env_good (loaded {[5%positive]})).

(** * Properties *)
(** ** Running the monad *)

Lemma bind_Ok {A B} (m : M A) (f : A -> M B) st a st1 tr1 :
  m st = Ok a st1 tr1 ->
  (m ≫= f) st = match f a st1 with
                | Ok b st2 tr2 => Ok b st2 (tr1 ++ tr2)
                | Crash st2 tr2 => Crash st2 (tr1 ++ tr2)
                end.
Proof. intros H. unfold mbind, M_bind. now rewrite H. Qed.

Lemma bind_Crash {A B} (m : M A) (f : A -> M B) st st1 tr1 :
  m st = Crash st1 tr1 -> (m ≫= f) st = Crash st1 tr1.
Proof. intros H. unfold mbind, M_bind. now rewrite H. Qed.

Ltac run :=
  cbv [mbind M_bind mret M_ret gets modify emit crash when deref
       jFindClass jGetStaticMethodID jCallStaticBooleanMethod
       jCallStaticVoidMethod jCallStaticIntMethod jNewStringUTF
       jDeleteLocalRef];
  cbn.

Ltac case_lookup :=
  match goal with
  | |- context [FindClass ?e ?n] =>
      let E := fresh "Hc" in destruct (FindClass e n) eqn:E
  | |- context [GetStaticMethodID ?e ?c ?n ?s] =>
      let E := fresh "Hm" in destruct (GetStaticMethodID e c n s) eqn:E
  end.

(** ** InitializeJNIMethods *)

Ltac init_resolves :=
  split;
  [ first [ discriminate
          | intros _; do 3 eexists; repeat split; eauto ]
  | first [ reflexivity
          | intros (amc & tc & gc & ? & ? & ? & ? & ? & ? & ? & ?);
            simplify_eq;
            repeat match goal with
              | H : is_Some ?x, E : ?x = None |- _ =>
                  rewrite E in H; destruct H; discriminate
              end ] ].

Lemma InitializeJNIMethods_body_run env st :
  exists ok st' tr,
    InitializeJNIMethods_body env st = Ok ok st' tr /\
    (ok = true <-> resolves env) /\
    (ok = true -> all_resolved st') /\
    same_runtime st st' /\
    Forall (fun e => lookup_side e = true) tr /\
    (forall c n s m, EvGetStaticMethodID c n s (Some m) ∈ tr ->
                     handle_named n st' = Some m).
Proof.
  unfold InitializeJNIMethods_body. run.
  repeat (case_lookup; cbn).
  all: do 3 eexists; split; [reflexivity|].
  all: split; [init_resolves|].
  all: split; [first [discriminate | intros _; repeat split; cbn; eauto]|].
  all: split; [repeat split|].
  all: split; [repeat (constructor; [reflexivity|]); constructor|].
  all: intros c n s m Hin;
    repeat (apply elem_of_cons in Hin as [Hin|Hin];
            [simplify_eq; try reflexivity|]);
    now apply elem_of_nil in Hin.
Qed.

Lemma InitializeJNIMethods_run env st :
  exists ok st' tr,
    InitializeJNIMethods env st =
      Ok ok st' (EnterInitializeJNIMethods :: tr ++
                 [LeaveInitializeJNIMethods ok]) /\
    (ok = true <-> resolves env) /\
    (ok = true -> all_resolved st') /\
    same_runtime st st' /\
    Forall (fun e => lookup_side e = true) tr /\
    (forall c n s m, EvGetStaticMethodID c n s (Some m) ∈ tr ->
                     handle_named n st' = Some m).
Proof.
  destruct (InitializeJNIMethods_body_run env st) as (ok & st' & tr & E & H).
  exists ok, st', tr. split; [|exact H].
  unfold InitializeJNIMethods, mbind, M_bind, emit, mret, M_ret.
  rewrite E. reflexivity.
Qed.

(** ** The head of every bridge operation *)

Lemma GetJNIEnv_run c st :
  GetJNIEnv c st =
    match g_jvm st with
    | None => Crash st []
    | Some _ =>
      if decide (self c ∈ attached st)
      then Ok (Some (jni c, false)) st [EvGetEnv (self c) true]
      else if attach_ok c
      then Ok (Some (jni c, true))
              (set_attached (attached st ∪ {[self c]}) st)
              [EvGetEnv (self c) false; EvAttachCurrentThread (self c) true]
      else Ok None st
              [EvGetEnv (self c) false; EvAttachCurrentThread (self c) false]
    end.
Proof.
  unfold GetJNIEnv, JavaVM_GetEnv, JavaVM_AttachCurrentThread. run.
  destruct (g_jvm st) eqn:Hvm; cbn; [|reflexivity].
  destruct (decide (self c ∈ attached st)); cbn; [reflexivity|].
  rewrite Hvm. cbn. now destruct (attach_ok c).
Qed.

(** ** The shape of a bridge call *)

Lemma guard_of_set_attached k a s :
  guard_of k (set_attached a s) = guard_of k s.
Proof. now destruct k. Qed.

Lemma union_then_difference (t : tid) (X : gset tid) :
  t ∉ X -> (X ∪ {[t]}) ∖ {[t]} = X.
Proof.
  intros Hn. apply set_eq. intros x.
  rewrite elem_of_difference, elem_of_union, elem_of_singleton.
  split; [intros [[?|?] ?]; [assumption|contradiction]|].
  intros Hx. split; [now left|]. intros ->. contradiction.
Qed.

Lemma settle_attach c st :
  self c ∉ attached st ->
  settle c true (set_attached (attached st ∪ {[self c]}) st) = st.
Proof.
  intros Hn. destruct st as [h1 h2 h3 h4 h5 vm att sp sd]. cbn in *.
  unfold set_attached. cbn. now rewrite union_then_difference.
Qed.

Lemma DetachIfAttached_run c att st :
  is_Some (g_jvm st) ->
  DetachIfAttached att c st =
    Ok tt (settle c att st)
       (if att then [EvDetachCurrentThread (self c)] else []).
Proof.
  intros [vm Hvm]. destruct att; [|reflexivity].
  unfold DetachIfAttached, JavaVM_DetachCurrentThread. run.
  rewrite Hvm. reflexivity.
Qed.

Section Bridge.
Context {A : Type} (k : Call) (dflt : A) (tail : JNIEnv -> bool -> M A).
Context (c : Ctx).
Hypothesis Htail : tail_spec c tail.

(** What follows the head of the operation. *)
Let continue (env : JNIEnv) (att : bool) : M A :=
  g ← gets (guard_of k);
  ok ← (if is_null g then InitializeJNIMethods env else mret true);
  if negb ok then DetachIfAttached att c;; mret dflt
  else tail env att.

Let post (att : bool) : list Event :=
  if att then [EvDetachCurrentThread (self c)] else [].

Lemma continue_run env att st1 :
  is_Some (g_jvm st1) ->
  (is_Some (guard_of k st1) /\
   exists a jtr,
     continue env att st1 = Ok a (settle c att st1) (jtr ++ post att) /\
     Forall (fun e => java_side e = true) jtr /\
     Exists (fun e => is_java_call e = true) jtr)
  \/
  (guard_of k st1 = None /\ ~ resolves env /\
   exists st2 itr,
     continue env att st1 =
       Ok dflt (settle c att st2)
          (EnterInitializeJNIMethods :: itr ++
           LeaveInitializeJNIMethods false :: post att) /\
     same_runtime st1 st2 /\
     Forall (fun e => lookup_side e = true) itr /\
     (forall cl n s m, EvGetStaticMethodID cl n s (Some m) ∈ itr ->
                       handle_named n st2 = Some m))
  \/
  (guard_of k st1 = None /\ resolves env /\
   exists a st2 itr jtr,
     continue env att st1 =
       Ok a (settle c att st2)
          (EnterInitializeJNIMethods :: itr ++
           LeaveInitializeJNIMethods true :: jtr ++ post att) /\
     same_runtime st1 st2 /\ all_resolved st2 /\
     Forall (fun e => lookup_side e = true) itr /\
     Forall (fun e => java_side e = true) jtr /\
     Exists (fun e => is_java_call e = true) jtr).
Proof.
  intros Hvm. unfold continue.
  rewrite (bind_Ok (gets (guard_of k)) _ st1 (guard_of k st1) st1 [] eq_refl).
  destruct (guard_of k st1) as [m|] eqn:Hg; cbn [is_null].
  - left. split; [eauto|].
    rewrite (bind_Ok (mret true) _ st1 true st1 [] eq_refl). cbn [negb].
    destruct (Htail env att st1 Hvm) as (a & jtr & E & F1 & F2).
    rewrite E. exists a, jtr. auto.
  - right.
    destruct (InitializeJNIMethods_run env st1)
      as (ok & st2 & itr & E & Hok & Hall & Hsame & Hitr & Hset).
    rewrite (bind_Ok _ _ _ _ _ _ E).
    assert (Hvm2 : is_Some (g_jvm st2)).
    { destruct Hsame as (-> & _). exact Hvm. }
    destruct ok; cbn [negb].
    + right. split; [reflexivity|]. split; [now apply Hok|].
      destruct (Htail env att st2 Hvm2) as (a & jtr & E2 & F1 & F2).
      rewrite E2. exists a, st2, itr, jtr.
      split; [|auto 10].
      cbn. f_equal. rewrite <- !app_assoc. reflexivity.
    + left. split; [reflexivity|].
      split; [intros Hr; apply Hok in Hr; discriminate|].
      rewrite (bind_Ok _ _ _ _ _ _ (DetachIfAttached_run c att st2 Hvm2)).
      exists st2, itr. split; [|auto].
      cbn. f_equal. rewrite <- !app_assoc, app_nil_r. reflexivity.
Qed.

Lemma bridge_outcome st :
  outcome k c dflt st (bridge k (guard_of k) dflt tail c st).
Proof.
  change (bridge k (guard_of k) dflt tail c) with
    (emit (Enter k);;
     r ← GetJNIEnv c;
     match r with
     | None => mret dflt
     | Some (env, att) => continue env att
     end).
  rewrite (bind_Ok (emit (Enter k)) _ st tt st [Enter k] eq_refl).
  pose proof (GetJNIEnv_run c st) as Hget.
  destruct (g_jvm st) as [vm|] eqn:Hvm.
  2:{ rewrite (bind_Crash _ _ _ _ _ Hget). now constructor. }
  assert (Hsome : is_Some (g_jvm st)) by eauto.
  destruct (decide (self c ∈ attached st)) as [Hin|Hout].
  - (* the thread is already attached *)
    rewrite (bind_Ok _ _ _ _ _ _ Hget).
    assert (Hna : ~ attach_fails c st) by (intros [? _]; contradiction).
    assert (Hm : must_attach c st = false).
    { apply bool_decide_eq_false_2. intros Hn. contradiction. }
    destruct (continue_run (jni c) false st Hsome)
      as [(Hg & a & jtr & -> & F1 & F2)
         |[(Hg & Hr & st2 & itr & -> & Hs & F1 & Hh)
          |(Hg & Hr & a & st2 & itr & jtr & -> & Hs & Ha & F1 & F2 & F3)]].
    + replace (_ ++ _ ++ jtr ++ post false)
        with (prologue k c st ++ jtr ++ epilogue c st)
        by (unfold prologue, epilogue; now rewrite Hm).
      now apply out_called.
    + replace (_ ++ _ ++ _ :: _ ++ _ :: post false)
        with (prologue k c st ++ EnterInitializeJNIMethods :: itr ++
              LeaveInitializeJNIMethods false :: epilogue c st)
        by (unfold prologue, epilogue; now rewrite Hm).
      now apply out_init_failed.
    + replace (_ ++ _ ++ _ :: _ ++ _ :: jtr ++ post false)
        with (prologue k c st ++ EnterInitializeJNIMethods :: itr ++
              LeaveInitializeJNIMethods true :: jtr ++ epilogue c st)
        by (unfold prologue, epilogue; now rewrite Hm).
      now apply out_init_called.
  - assert (Hm : must_attach c st = true) by now apply bool_decide_eq_true_2.
    destruct (attach_ok c) eqn:Hatt.
    + (* the call attaches, and detaches at the end *)
      rewrite (bind_Ok _ _ _ _ _ _ Hget).
      assert (Hna : ~ attach_fails c st) by (intros [_ ?]; congruence).
      set (st1 := set_attached (attached st ∪ {[self c]}) st).
      assert (Hsome1 : is_Some (g_jvm st1)) by exact Hsome.
      assert (Hback : forall s, same_runtime st1 s ->
                same_runtime st (settle c true s)).
      { intros s (H1 & H2 & H3 & H4). repeat split; cbn; try assumption.
        rewrite H2. now apply union_then_difference. }
      destruct (continue_run (jni c) true st1 Hsome1)
        as [(Hg & a & jtr & -> & F1 & F2)
           |[(Hg & Hr & st2 & itr & -> & Hs & F1 & Hh)
            |(Hg & Hr & a & st2 & itr & jtr & -> & Hs & Ha & F1 & F2 & F3)]].
      * replace (settle c true st1) with st.
        2:{ symmetry. now apply settle_attach. }
        replace (_ ++ _ ++ jtr ++ post true)
          with (prologue k c st ++ jtr ++ epilogue c st)
          by (unfold prologue, epilogue; now rewrite Hm).
        unfold st1 in Hg. rewrite guard_of_set_attached in Hg.
        now apply out_called.
      * replace (_ ++ _ ++ _ :: _ ++ _ :: post true)
          with (prologue k c st ++ EnterInitializeJNIMethods :: itr ++
                LeaveInitializeJNIMethods false :: epilogue c st)
          by (unfold prologue, epilogue; now rewrite Hm).
        unfold st1 in Hg. rewrite guard_of_set_attached in Hg.
        apply out_init_failed; try assumption; now apply Hback.
      * replace (_ ++ _ ++ _ :: _ ++ _ :: jtr ++ post true)
          with (prologue k c st ++ EnterInitializeJNIMethods :: itr ++
                LeaveInitializeJNIMethods true :: jtr ++ epilogue c st)
          by (unfold prologue, epilogue; now rewrite Hm).
        unfold st1 in Hg. rewrite guard_of_set_attached in Hg.
        apply out_init_called; try assumption; now apply Hback.
    + (* attaching failed *)
      rewrite (bind_Ok _ _ _ _ _ _ Hget). cbn.
      now apply out_attach_failed.
Qed.
End Bridge.

(** ** The five operations are instances of [bridge] *)

Lemma bind_ret_map {A B} (m : M A) (f : A -> B) st :
  (m ≫= fun a => mret (f a)) st = map_res f (m st).
Proof.
  unfold mbind, M_bind, mret, M_ret.
  destruct (m st); cbn; now rewrite ?app_nil_r.
Qed.

Lemma outcome_map {A B} (f : A -> B) k c d st r :
  outcome k c d st r -> outcome k c (f d) st (map_res f r).
Proof. intros H. destruct H; cbn; now constructor. Qed.

Ltac tail_steps :=
  intros env att st [vm Hvm];
  unfold DetachIfAttached, JavaVM_DetachCurrentThread; run;
  destruct att; cbn; rewrite ?Hvm; cbn.

Ltac tail_done :=
  match goal with
  | |- exists a jtr, Ok ?v _ ?tr = _ /\ _ =>
      let l := eval cbn in (List.filter java_side tr) in
      exists v, l
  end;
  split; [reflexivity|];
  split; [repeat constructor|];
  repeat first [ apply Exists_cons_hd; reflexivity | apply Exists_cons_tl ].

Lemma IsAndroidAccessibilityEnabled_bridge c :
  exists tail, tail_spec c tail /\
    IsAndroidAccessibilityEnabled c =
      bridge CIsAndroidAccessibilityEnabled g_isScreenReaderEnabled false
             tail c.
Proof.
  eexists. split; [|unfold IsAndroidAccessibilityEnabled, bridge; reflexivity].
  tail_steps; tail_done.
Qed.

Lemma SpeakAndroidText_bridge c text force :
  exists tail, tail_spec c tail /\
    SpeakAndroidText c text force =
      bridge (CSpeakAndroidText text force) g_speak tt tail c.
Proof.
  eexists. split; [|unfold SpeakAndroidText, bridge; reflexivity].
  tail_steps; tail_done.
Qed.

Lemma StopAndroidSpeech_bridge c :
  exists tail, tail_spec c tail /\
    StopAndroidSpeech c = bridge CStopAndroidSpeech g_stop tt tail c.
Proof.
  eexists. split; [|unfold StopAndroidSpeech, bridge; reflexivity].
  tail_steps; tail_done.
Qed.

Lemma IsAndroidTTSReady_bridge c :
  exists tail, tail_spec c tail /\
    IsAndroidTTSReady c = bridge CIsAndroidTTSReady g_isReady false tail c.
Proof.
  eexists. split; [|unfold IsAndroidTTSReady, bridge; reflexivity].
  tail_steps; tail_done.
Qed.

Lemma HandleAndroidGesture_bridge c action x y time :
  exists tail, tail_spec c tail /\
    HandleAndroidGesture c action x y time =
      bridge (CHandleAndroidGesture action x y time) g_handleGesture 0
             tail c.
Proof.
  eexists. split; [|unfold HandleAndroidGesture, bridge; reflexivity].
  tail_steps; tail_done.
Qed.

(** Every bridge call ends in one of the five shapes. *)
Lemma run_call_outcome k c st :
  outcome k c (default_of k) st (run_call k c st).
Proof.
  destruct k as [|text force| | |action x y time]; cbn [run_call default_of].
  - destruct (IsAndroidAccessibilityEnabled_bridge c) as (tail & Ht & ->).
    rewrite bind_ret_map. apply (outcome_map VBool _ _ false).
    now apply bridge_outcome.
  - destruct (SpeakAndroidText_bridge c text force) as (tail & Ht & ->).
    rewrite (bind_ret_map _ (fun _ => VVoid)).
    apply (outcome_map (fun _ : unit => VVoid) _ _ tt).
    now apply bridge_outcome.
  - destruct (StopAndroidSpeech_bridge c) as (tail & Ht & ->).
    rewrite (bind_ret_map _ (fun _ => VVoid)).
    apply (outcome_map (fun _ : unit => VVoid) _ _ tt).
    now apply bridge_outcome.
  - destruct (IsAndroidTTSReady_bridge c) as (tail & Ht & ->).
    rewrite bind_ret_map. apply (outcome_map VBool _ _ false).
    now apply bridge_outcome.
  - destruct (HandleAndroidGesture_bridge c action x y time)
      as (tail & Ht & ->).
    rewrite bind_ret_map. apply (outcome_map VInt _ _ 0).
    now apply bridge_outcome.
Qed.

(** ** Counting events *)

Lemma count_app p l1 l2 : count p (l1 ++ l2) = (count p l1 + count p l2)%nat.
Proof. unfold count. now rewrite List.filter_app, length_app. Qed.

Lemma count_cons p e l :
  count p (e :: l) = ((if p e then 1 else 0) + count p l)%nat.
Proof. unfold count. cbn. now destruct (p e). Qed.

Lemma count_nil p : count p [] = 0%nat.
Proof. reflexivity. Qed.

(** If every event of [l] is of kind [q], and no event of kind [q] is of
    kind [p], then [l] has no event of kind [p]. *)
Lemma count_disjoint (p q : Event -> bool) l :
  (forall e, q e = true -> p e = false) ->
  Forall (fun e => q e = true) l -> count p l = 0%nat.
Proof.
  intros Hpq. induction 1 as [|e l He _ IH]; [reflexivity|].
  rewrite count_cons, (Hpq e He). exact IH.
Qed.

Lemma java_side_not p :
  (forall e, java_side e = true -> p e = false) ->
  forall l, Forall (fun e => java_side e = true) l -> count p l = 0%nat.
Proof. intros H l. now apply count_disjoint. Qed.

Lemma lookup_side_not p :
  (forall e, lookup_side e = true -> p e = false) ->
  forall l, Forall (fun e => lookup_side e = true) l -> count p l = 0%nat.
Proof. intros H l. now apply count_disjoint. Qed.

Ltac by_kind := intros e; destruct e; cbn; congruence.

Lemma trace_map_res {A B} (f : A -> B) r : trace (map_res f r) = trace r.
Proof. now destruct r. Qed.

Lemma state_of_map_res {A B} (f : A -> B) r :
  state_of (map_res f r) = state_of r.
Proof. now destruct r. Qed.

Lemma retval_map_res {A B} (f : A -> B) r :
  retval (map_res f r) = f <$> retval r.
Proof. now destruct r. Qed.

(** Counting the events of a kind in the trace of any bridge call, shape
    by shape. *)
Ltac count_shape :=
  unfold prologue, epilogue;
  repeat first [ rewrite count_app | rewrite count_cons | rewrite count_nil ];
  cbn [is_detach is_attach is_attach_attempt is_java_call is_resolution
       is_speech_backend is_init_success negb].

(** Claim C3.  Thread attach/detach balance.  For every bridge operation, thread
    and state, whichever way the call ends: it calls [DetachCurrentThread]
    exactly as often as its own [AttachCurrentThread] succeeded, and at most
    once; on the attach-failure path there is no detach; a call entered on
    a thread that is already attached neither attaches nor detaches and
    leaves it attached; and the set of attached threads after the call is
    the one before it. *)
Theorem attach_detach_balance (k : Call) (c : Ctx) (st : State) :
  let r := run_call k c st in
  count is_detach (trace r) = count is_attach (trace r) /\
  (count is_detach (trace r) <= 1)%nat /\
  (attach_fails c st -> count is_detach (trace r) = 0%nat) /\
  (self c ∈ attached st ->
   count is_attach_attempt (trace r) = 0%nat /\
   count is_detach (trace r) = 0%nat /\
   self c ∈ attached (state_of r)) /\
  attached (state_of r) = attached st.
Proof.
  cbn zeta.
  assert (J : forall p, (forall e, java_side e = true -> p e = false) ->
              forall l, Forall (fun e => java_side e = true) l ->
                        count p l = 0%nat) by apply java_side_not.
  assert (L : forall p, (forall e, lookup_side e = true -> p e = false) ->
              forall l, Forall (fun e => lookup_side e = true) l ->
                        count p l = 0%nat) by apply lookup_side_not.
  assert (Hin : self c ∈ attached st -> must_attach c st = false).
  { intros Hin. apply bool_decide_eq_false_2. now intros Hn. }
  assert (Hkeep : forall s, self c ∈ attached st ->
            attached s = attached st -> self c ∈ attached s).
  { intros s Hself ->. exact Hself. }
  destruct (run_call_outcome k c st)
    as [Hvm | Hvm [Hout Hatt]
       | st' itr Hvm Hna Hg Hr [_ [Hatt' _]] Fi Hh
       | a st' itr jtr Hvm Hna Hg Hr [_ [Hatt' _]] Ha Fi Fj Ej
       | a jtr Hvm Hna Hg Fj Ej]; cbn [trace state_of].
  1,2: repeat split; try reflexivity; auto; try contradiction.
  all: try pose proof (L is_detach ltac:(by_kind) itr Fi) as D.
  all: try pose proof (L is_attach ltac:(by_kind) itr Fi) as T.
  all: try pose proof (L is_attach_attempt ltac:(by_kind) itr Fi) as P.
  all: pose proof (J is_detach ltac:(by_kind) jtr Fj) as D' ||
       pose proof I as D'.
  all: pose proof (J is_attach ltac:(by_kind) jtr Fj) as T' ||
       pose proof I as T'.
  all: pose proof (J is_attach_attempt ltac:(by_kind) jtr Fj) as P' ||
       pose proof I as P'.
  all: split; [|split; [|split; [|split]]]; try reflexivity;
    try assumption.
  all: unfold prologue, epilogue.
  all: try (intros Hf; contradiction).
  all: try (intros Hself; rewrite (Hin Hself); repeat split; auto).
  all: try destruct (must_attach c st).
  all: count_shape; rewrite ?D, ?T, ?P, ?D', ?T', ?P'; lia.
Qed.

(** ** Failure paths *)

Lemma is_Some_None_absurd {A} : ~ is_Some (@None A).
Proof. intros [x Hx]. discriminate. Qed.

(** A failing bridge call returns the default of its operation and never
    reaches a managed method. *)
Lemma failure_default k c st :
  is_Some (g_jvm st) -> fails k c st ->
  exists st' tr,
    run_call k c st = Ok (default_of k) st' tr /\
    count is_java_call tr = 0%nat.
Proof.
  intros Hvm Hf.
  destruct (run_call_outcome k c st)
    as [Hno | _ _
       | st' itr _ Hna Hg Hr _ Fi _
       | a st' itr jtr _ Hna Hg Hr _ _ _ _ _
       | a jtr _ Hna Hg _ _].
  - rewrite Hno in Hvm. now apply is_Some_None_absurd in Hvm.
  - eexists _, _. split; [reflexivity|reflexivity].
  - eexists _, _. split; [reflexivity|].
    pose proof (lookup_side_not is_java_call ltac:(by_kind) itr Fi) as Z.
    unfold prologue, epilogue.
    destruct (must_attach c st); count_shape; rewrite Z; reflexivity.
  - destruct Hf as [Hf|[_ Hf]]; contradiction.
  - destruct Hf as [Hf|[Hf _]]; [contradiction|].
    rewrite Hf in Hg. now apply is_Some_None_absurd in Hg.
Qed.

Lemma map_res_Ok_inv {A B} (f : A -> B) r b st tr :
  map_res f r = Ok b st tr -> exists a, r = Ok a st tr /\ f a = b.
Proof. destruct r; cbn; intros H; inversion H; eauto. Qed.

Lemma run_call_IsAndroidAccessibilityEnabled c st :
  run_call CIsAndroidAccessibilityEnabled c st =
    map_res VBool (IsAndroidAccessibilityEnabled c st).
Proof. apply bind_ret_map. Qed.

Lemma run_call_IsAndroidTTSReady c st :
  run_call CIsAndroidTTSReady c st = map_res VBool (IsAndroidTTSReady c st).
Proof. apply bind_ret_map. Qed.

Lemma run_call_HandleAndroidGesture c action x y time st :
  run_call (CHandleAndroidGesture action x y time) c st =
    map_res VInt (HandleAndroidGesture c action x y time st).
Proof. apply bind_ret_map. Qed.

Lemma run_call_SpeakAndroidText c text force st :
  run_call (CSpeakAndroidText text force) c st =
    map_res (fun _ => VVoid) (SpeakAndroidText c text force st).
Proof. apply (bind_ret_map _ (fun _ => VVoid)). Qed.

Lemma run_call_StopAndroidSpeech c st :
  run_call CStopAndroidSpeech c st =
    map_res (fun _ => VVoid) (StopAndroidSpeech c st).
Proof. apply (bind_ret_map _ (fun _ => VVoid)). Qed.

(** The two failure paths that the operations test.  Once [g_jvm] is set,
    when the thread cannot be attached, or lazy initialisation is due and a
    class or method lookup fails, each operation returns normally with its
    default:
    [IsAndroidAccessibilityEnabled] and [IsAndroidTTSReady] return false,
    [HandleAndroidGesture] returns 0, [SpeakAndroidText] and
    [StopAndroidSpeech] return, and no managed method is called. *)
Theorem failures_return_defaults (c : Ctx) (st : State) :
  is_Some (g_jvm st) ->
  (fails CIsAndroidAccessibilityEnabled c st ->
   exists st' tr, IsAndroidAccessibilityEnabled c st = Ok false st' tr /\
                  count is_java_call tr = 0%nat) /\
  (fails CIsAndroidTTSReady c st ->
   exists st' tr, IsAndroidTTSReady c st = Ok false st' tr /\
                  count is_java_call tr = 0%nat) /\
  (forall action x y time,
   fails (CHandleAndroidGesture action x y time) c st ->
   exists st' tr, HandleAndroidGesture c action x y time st = Ok 0 st' tr /\
                  count is_java_call tr = 0%nat) /\
  (forall text force,
   fails (CSpeakAndroidText text force) c st ->
   exists st' tr, SpeakAndroidText c text force st = Ok tt st' tr /\
                  count is_java_call tr = 0%nat) /\
  (fails CStopAndroidSpeech c st ->
   exists st' tr, StopAndroidSpeech c st = Ok tt st' tr /\
                  count is_java_call tr = 0%nat).
Proof.
  intros Hvm.
  split; [|split; [|split; [|split]]].
  - intros Hf.
    destruct (failure_default _ c st Hvm Hf) as (st' & tr & E & Hn).
    rewrite run_call_IsAndroidAccessibilityEnabled in E.
    apply map_res_Ok_inv in E as (b & E & Hb).
    injection Hb as ->. eauto.
  - intros Hf.
    destruct (failure_default _ c st Hvm Hf) as (st' & tr & E & Hn).
    rewrite run_call_IsAndroidTTSReady in E.
    apply map_res_Ok_inv in E as (b & E & Hb).
    injection Hb as ->. eauto.
  - intros action x y time Hf.
    destruct (failure_default _ c st Hvm Hf) as (st' & tr & E & Hn).
    rewrite run_call_HandleAndroidGesture in E.
    apply map_res_Ok_inv in E as (z & E & Hz).
    injection Hz as ->. eauto.
  - intros text force Hf.
    destruct (failure_default _ c st Hvm Hf) as (st' & tr & E & Hn).
    rewrite run_call_SpeakAndroidText in E.
    apply map_res_Ok_inv in E as ([] & E & _). eauto.
  - intros Hf.
    destruct (failure_default _ c st Hvm Hf) as (st' & tr & E & Hn).
    rewrite run_call_StopAndroidSpeech in E.
    apply map_res_Ok_inv in E as ([] & E & _). eauto.
Qed.

(** Claim C10.  A failed gesture call looks like "no gesture".  On every failure
    path [HandleAndroidGesture] returns 0, which is [GESTURE_NONE], and
    there is a call that does reach the managed [handleGesture] and returns
    the very same value: the return value does not tell the two apart. *)
Theorem gesture_failure_is_GESTURE_NONE
    (c : Ctx) (st : State) (action : Z) (x y : jfloat) (time : Z) :
  is_Some (g_jvm st) ->
  fails (CHandleAndroidGesture action x y time) c st ->
  retval (HandleAndroidGesture c action x y time st) = Some GESTURE_NONE /\
  count is_java_call (trace (HandleAndroidGesture c action x y time st))
    = 0%nat /\
  exists c' st',
    count is_java_call (trace (HandleAndroidGesture c' action x y time st'))
      = 1%nat /\
    retval (HandleAndroidGesture c' action x y time st') =
    retval (HandleAndroidGesture c action x y time st).
Proof.
  intros Hvm Hf.
  destruct (failure_default _ c st Hvm Hf) as (st' & tr & E & Hn).
  rewrite run_call_HandleAndroidGesture in E.
  apply map_res_Ok_inv in E as (z & E & Hz). injection Hz as ->.
  rewrite E. cbn [retval trace].
  split; [reflexivity|]. split; [exact Hn|].
  exists (mkCtx 1%positive true env_good), (loaded ∅).
  split; vm_compute; reflexivity.
Qed.

(** ** Lazy initialisation *)

Lemma count_zero_Forall p l :
  count p l = 0%nat <-> Forall (fun e => p e = false) l.
Proof.
  induction l as [|e l IH]; [split; [constructor|reflexivity]|].
  rewrite count_cons. split.
  - destruct (p e) eqn:E; [discriminate|]. cbn. intros H.
    constructor; [assumption|now apply IH].
  - intros H. inversion H as [|? ? Hp Hl]; subst. rewrite Hp. cbn.
    now apply IH.
Qed.

Lemma count_zero_elem p l e :
  count p l = 0%nat -> e ∈ l -> p e = false.
Proof.
  intros H Hin. apply count_zero_Forall in H.
  rewrite Forall_forall in H. now apply H.
Qed.

(** A call whose guarding handle is already set performs no resolution and
    changes nothing, whatever the other handles are. *)
Lemma guarded_call_skips_resolution k c st :
  is_Some (guard_of k st) ->
  count is_resolution (trace (run_call k c st)) = 0%nat /\
  state_of (run_call k c st) = st.
Proof.
  intros Hguard.
  destruct (run_call_outcome k c st)
    as [Hno | _ _
       | st' itr _ _ Hg _ _ _ _
       | a st' itr jtr _ _ Hg _ _ _ _ _ _
       | a jtr _ _ _ Fj _]; cbn [trace state_of].
  - split; reflexivity.
  - split; reflexivity.
  - rewrite Hg in Hguard. now apply is_Some_None_absurd in Hguard.
  - rewrite Hg in Hguard. now apply is_Some_None_absurd in Hguard.
  - split; [|reflexivity].
    pose proof (java_side_not is_resolution ltac:(by_kind) jtr Fj) as Z.
    unfold prologue, epilogue.
    destruct (must_attach c st); count_shape; rewrite Z; reflexivity.
Qed.

Lemma all_resolved_guard k st : all_resolved st -> is_Some (guard_of k st).
Proof. intros (H1 & H2 & H3 & H4 & H5). now destruct k. Qed.

Lemma trace_bind {A B} (m : M A) (f : A -> M B) st :
  trace ((m ≫= f) st) =
    match m st with
    | Ok a st1 tr1 => tr1 ++ trace (f a st1)
    | Crash _ tr1 => tr1
    end.
Proof.
  unfold mbind, M_bind. destruct (m st) as [a st1 tr1|st1 tr1]; [|reflexivity].
  now destruct (f a st1).
Qed.

Lemma state_of_bind {A B} (m : M A) (f : A -> M B) st :
  state_of ((m ≫= f) st) =
    match m st with
    | Ok a st1 _ => state_of (f a st1)
    | Crash st1 _ => st1
    end.
Proof.
  unfold mbind, M_bind. destruct (m st) as [a st1 tr1|st1 tr1]; [|reflexivity].
  now destruct (f a st1).
Qed.

Lemma trace_run_calls_cons k c ks st :
  trace (run_calls ((k, c) :: ks) st) =
    match run_call k c st with
    | Ok _ st1 tr1 => tr1 ++ trace (run_calls ks st1)
    | Crash _ tr1 => tr1
    end.
Proof.
  cbn [run_calls]. rewrite trace_bind.
  destruct (run_call k c st) as [v st1 tr1|]; [|reflexivity].
  rewrite trace_bind.
  destruct (run_calls ks st1); cbn; now rewrite ?app_nil_r.
Qed.

Lemma state_of_run_calls_cons k c ks st :
  state_of (run_calls ((k, c) :: ks) st) =
    match run_call k c st with
    | Ok _ st1 _ => state_of (run_calls ks st1)
    | Crash st1 _ => st1
    end.
Proof.
  cbn [run_calls]. rewrite state_of_bind.
  destruct (run_call k c st) as [v st1 tr1|]; [|reflexivity].
  rewrite state_of_bind.
  now destruct (run_calls ks st1).
Qed.

(** Once every handle is set, no sequence of calls resolves anything or
    changes the state. *)
Lemma resolved_calls ks : forall st,
  all_resolved st ->
  state_of (run_calls ks st) = st /\
  count is_resolution (trace (run_calls ks st)) = 0%nat.
Proof.
  induction ks as [|[k c] ks IH]; intros st Hall; [split; reflexivity|].
  destruct (guarded_call_skips_resolution k c st (all_resolved_guard k st Hall))
    as [Hc Hs].
  rewrite trace_run_calls_cons, state_of_run_calls_cons.
  destruct (run_call k c st) as [v st1 tr1|st1 tr1];
    cbn [trace state_of] in Hc, Hs; subst st1.
  - destruct (IH st Hall) as [-> Hn]. split; [reflexivity|].
    rewrite count_app, Hc, Hn. reflexivity.
  - now split.
Qed.

Lemma split_unique p (x : Event) A : forall B A' B',
  p x = true -> count p A = 0%nat -> count p B = 0%nat ->
  A ++ x :: B = A' ++ x :: B' -> B' = B.
Proof.
  induction A as [|a A IH]; intros B A' B' Hx HA HB E.
  - destruct A' as [|y A'']; cbn in E.
    + now injection E as ->.
    + injection E as -> ->.
      rewrite count_app, count_cons, Hx in HB. lia.
  - rewrite count_cons in HA. destruct A' as [|y A'']; cbn in E.
    + injection E as -> _. rewrite Hx in HA. lia.
    + injection E as -> E. apply (IH B A'' B' Hx); [|assumption|assumption].
      destruct (p y); [discriminate|exact HA].
Qed.

(** Within one call: everything after a successful return of
    [InitializeJNIMethods] is free of resolution, and the call ends with
    every handle set. *)
Lemma call_after_success k c st tr1 tr2 :
  trace (run_call k c st) = tr1 ++ LeaveInitializeJNIMethods true :: tr2 ->
  count is_resolution tr2 = 0%nat /\
  exists v st1, run_call k c st = Ok v st1 (trace (run_call k c st)) /\
                all_resolved st1.
Proof.
  intros E.
  assert (Hocc : count is_init_success (trace (run_call k c st)) <> 0%nat).
  { rewrite E, count_app, count_cons. cbn. lia. }
  destruct (run_call_outcome k c st)
    as [Hno | _ _
       | st' itr _ _ _ _ _ Fi _
       | a st' itr jtr _ _ _ _ _ Hall Fi Fj _
       | a jtr _ _ _ Fj _]; cbn [trace] in *.
  - now contradict Hocc.
  - now contradict Hocc.
  - contradict Hocc.
    pose proof (lookup_side_not is_init_success ltac:(by_kind) itr Fi) as Z.
    unfold prologue, epilogue.
    destruct (must_attach c st); count_shape; rewrite Z; reflexivity.
  - clear Hocc.
    pose proof (lookup_side_not is_init_success ltac:(by_kind) itr Fi) as Zi.
    pose proof (java_side_not is_init_success ltac:(by_kind) jtr Fj) as Zj.
    pose proof (java_side_not is_resolution ltac:(by_kind) jtr Fj) as Rj.
    assert (tr2 = jtr ++ epilogue c st) as ->.
    { apply (split_unique is_init_success (LeaveInitializeJNIMethods true)
               (prologue k c st ++ EnterInitializeJNIMethods :: itr)
               _ tr1 tr2 eq_refl).
      - unfold prologue.
        destruct (must_attach c st); count_shape; rewrite Zi; reflexivity.
      - unfold epilogue.
        destruct (must_attach c st); count_shape; rewrite Zj; reflexivity.
      - rewrite <- E, <- app_assoc. reflexivity. }
    split; [|eauto].
    unfold epilogue.
    destruct (must_attach c st); count_shape; rewrite Rj; reflexivity.
  - contradict Hocc.
    pose proof (java_side_not is_init_success ltac:(by_kind) jtr Fj) as Z.
    unfold prologue, epilogue.
    destruct (must_attach c st); count_shape; rewrite Z; reflexivity.
Qed.

(** Across calls: whatever follows a successful return of
    [InitializeJNIMethods] in a run is free of resolution. *)
Lemma calls_after_success ks : forall st tr1 tr2,
  trace (run_calls ks st) = tr1 ++ LeaveInitializeJNIMethods true :: tr2 ->
  count is_resolution tr2 = 0%nat.
Proof.
  induction ks as [|[k c] ks IH]; intros st tr1 tr2 E.
  - cbn in E. now destruct tr1.
  - rewrite trace_run_calls_cons in E.
    destruct (run_call k c st) as [v st1 T1|st1 T1] eqn:Ec.
    + apply app_eq_app in E as [l [[E1 E2]|[E1 E2]]].
      * destruct l as [|e l].
        -- cbn in E2. apply (IH st1 [] tr2). now rewrite <- E2.
        -- injection E2 as <- ->.
           pose proof (call_after_success k c st tr1 l) as H.
           rewrite Ec in H. cbn [trace] in H.
           destruct (H E1) as (Hl & v' & st' & E' & Hall).
           injection E' as _ <-.
           destruct (resolved_calls ks st1 Hall) as [_ Hn].
           now rewrite count_app, Hl, Hn.
      * apply (IH st1 l tr2). exact E2.
    + pose proof (call_after_success k c st tr1 tr2) as H.
      rewrite Ec in H. cbn [trace] in H.
      destruct (H E) as (_ & v' & st' & E' & _). discriminate.
Qed.

(** Claim C5.  Handles are resolved lazily and once.  A bridge call enters
    [InitializeJNIMethods] only if its guarding handle is null, and it does
    enter it whenever that handle is null, [g_jvm] is set and the thread
    has an environment; when all lookups succeed in that environment the
    call sees [InitializeJNIMethods] return true and ends with all five
    handles set.  In any run of bridge calls, on any threads, nothing after
    a successful return of [InitializeJNIMethods] enters it again or looks
    a method up; and from a state with every handle set, any run leaves the
    state as it is. *)
Theorem handles_resolved_once :
  (forall k c st,
     EnterInitializeJNIMethods ∈ trace (run_call k c st) ->
     guard_of k st = None) /\
  (forall k c st,
     is_Some (g_jvm st) -> ~ attach_fails c st -> guard_of k st = None ->
     EnterInitializeJNIMethods ∈ trace (run_call k c st) /\
     (resolves (jni c) ->
      LeaveInitializeJNIMethods true ∈ trace (run_call k c st) /\
      all_resolved (state_of (run_call k c st)))) /\
  (forall ks st tr1 tr2,
     trace (run_calls ks st) =
       tr1 ++ LeaveInitializeJNIMethods true :: tr2 ->
     Forall (fun e => is_resolution e = false) tr2) /\
  (forall ks st,
     all_resolved st ->
     state_of (run_calls ks st) = st /\
     Forall (fun e => is_resolution e = false) (trace (run_calls ks st))).
Proof.
  split; [|split; [|split]].
  - intros k c st Hin.
    destruct (guard_of k st) as [m|] eqn:Hg; [|reflexivity].
    destruct (guarded_call_skips_resolution k c st) as [Hn _].
    { rewrite Hg. eauto. }
    pose proof (count_zero_elem _ _ _ Hn Hin) as Habs. discriminate.
  - intros k c st Hvm Hna Hg.
    destruct (run_call_outcome k c st)
      as [Hno | _ Hf
         | st' itr _ _ _ Hr _ _ _
         | a st' itr jtr _ _ _ _ _ Hall _ _ _
         | a jtr _ _ Hsome _ _]; cbn [trace state_of].
    + rewrite Hno in Hvm. now apply is_Some_None_absurd in Hvm.
    + contradiction.
    + split; [|intros; contradiction].
      apply elem_of_app. right. apply list_elem_of_here.
    + split; [apply elem_of_app; right; apply list_elem_of_here|].
      intros _. split; [|exact Hall].
      apply elem_of_app. right. apply list_elem_of_further.
      apply elem_of_app. right. apply list_elem_of_here.
    + rewrite Hg in Hsome. now apply is_Some_None_absurd in Hsome.
  - intros ks st tr1 tr2 E. apply count_zero_Forall.
    now apply (calls_after_success ks st tr1).
  - intros ks st Hall. destruct (resolved_calls ks st Hall) as [Hs Hn].
    split; [assumption|]. now apply count_zero_Forall.
Qed.

(** Claim C6.  [InitializeJNIMethods] returns true exactly when the three class
    lookups and the five method lookups all succeed, and false exactly when
    one of them fails; it always returns. *)
Theorem InitializeJNIMethods_true_iff_resolves (env : JNIEnv) (st : State) :
  (retval (InitializeJNIMethods env st) = Some true <-> resolves env) /\
  (retval (InitializeJNIMethods env st) = Some false <-> ~ resolves env).
Proof.
  destruct (InitializeJNIMethods_run env st)
    as (ok & st' & tr & -> & Hok & _).
  cbn [retval]. split; split.
  - intros H. injection H as ->. now apply Hok.
  - intros H. apply Hok in H. now subst.
  - intros H. injection H as ->. intros Hr. apply Hok in Hr. discriminate.
  - intros H. destruct ok; [|reflexivity]. exfalso. apply H. now apply Hok.
Qed.

(** Claim C9.  Partial initialisation is kept.  A true return leaves all five
    handles set.  Every method handle that a lookup of
    [InitializeJNIMethods] produced is stored when it returns, also when it
    returns false.  A later call whose own guarding handle is set performs
    no resolution at all, whatever the other handles are; and this does
    happen: after a failed initialisation in an environment without
    [GestureDetector], [IsAndroidAccessibilityEnabled] skips initialisation
    and calls its managed method while [g_handleGesture] is still null. *)
Theorem partial_initialisation_is_kept :
  (forall env st,
     retval (InitializeJNIMethods env st) = Some true ->
     all_resolved (state_of (InitializeJNIMethods env st))) /\
  (forall env st cl n s m,
     EvGetStaticMethodID cl n s (Some m) ∈
       trace (InitializeJNIMethods env st) ->
     handle_named n (state_of (InitializeJNIMethods env st)) = Some m) /\
  (forall k c st,
     is_Some (guard_of k st) ->
     Forall (fun e => is_resolution e = false) (trace (run_call k c st))) /\
  (exists env st c,
     let r := InitializeJNIMethods env st in
     retval r = Some false /\
     is_Some (g_isScreenReaderEnabled (state_of r)) /\
     g_handleGesture (state_of r) = None /\
     count is_resolution
       (trace (IsAndroidAccessibilityEnabled c (state_of r))) = 0%nat /\
     count is_java_call
       (trace (IsAndroidAccessibilityEnabled c (state_of r))) = 1%nat).
Proof.
  split; [|split; [|split]].
  - intros env st.
    destruct (InitializeJNIMethods_run env st)
      as (ok & st' & tr & -> & _ & Hall & _).
    cbn [retval state_of]. intros H. injection H as ->. now apply Hall.
  - intros env st cl n s m.
    destruct (InitializeJNIMethods_run env st)
      as (ok & st' & tr & -> & _ & _ & _ & _ & Hset).
    cbn [trace state_of]. intros Hin.
    apply elem_of_cons in Hin as [Hin|Hin]; [discriminate|].
    apply elem_of_app in Hin as [Hin|Hin]; [now apply (Hset cl n s m)|].
    apply list_elem_of_singleton in Hin. discriminate.
  - intros k c st Hg. apply count_zero_Forall.
    now apply guarded_call_skips_resolution.
  - exists env_no_gesture, (loaded ∅), (mkCtx 1%positive true env_good).
    cbn zeta. split; [reflexivity|]. split; [vm_compute; eauto|].
    split; [reflexivity|]. split; vm_compute; reflexivity.
Qed.

(** The class handed to the managed call is looked up again on every call
    and the result is not tested: with the handle cached, a thread whose
    class loader does not find the class still reaches
    [CallStaticBooleanMethod], with a null class. *)
Lemma inline_FindClass_is_not_tested c st m :
  is_Some (g_jvm st) -> self c ∈ attached st ->
  g_isReady st = Some m ->
  FindClass (jni c) AndroidTextToSpeech_class = None ->
  trace (IsAndroidTTSReady c st) =
    [Enter CIsAndroidTTSReady; EvGetEnv (self c) true;
     EvFindClass AndroidTextToSpeech_class None;
     EvCallStaticBooleanMethod None (Some m)
       (CallStaticBooleanMethod (jni c) None (Some m))].
Proof.
  intros [vm Hvm] Hin Hm Hc.
  unfold IsAndroidTTSReady.
  rewrite (trace_bind (emit (Enter CIsAndroidTTSReady))). cbn [emit].
  rewrite trace_bind, GetJNIEnv_run, Hvm.
  destruct (decide (self c ∈ attached st)); [|contradiction].
  unfold DetachIfAttached. run. rewrite !Hm. cbn. rewrite !Hc, ?Hm.
  reflexivity.
Qed.

(** Claim C4.  The code does not do this for every failed class lookup.
    The lookups of [InitializeJNIMethods] are tested, but the class passed
    to the managed call is looked up once more in each operation and that
    result is used untested.  With the five handles cached, on a thread
    whose class loader finds none of the classes, no operation returns its
    default: each one calls its managed method with a null class, and
    returns what that call answers. *)
Theorem inline_class_lookup_failure_is_not_handled :
  let c := mkCtx 6%positive true env_no_classes in
  let zero := S754_zero false in
  all_resolved st_ready /\
  FindClass (jni c) AccessibilityManager_class = None /\
  FindClass (jni c) AndroidTextToSpeech_class = None /\
  FindClass (jni c) GestureDetector_class = None /\
  IsAndroidTTSReady c st_ready =
    Ok true st_ready
       [Enter CIsAndroidTTSReady; EvGetEnv 6%positive false;
        EvAttachCurrentThread 6%positive true;
        EvFindClass AndroidTextToSpeech_class None;
        EvCallStaticBooleanMethod None (Some 14%positive) JNI_TRUE;
        EvDetachCurrentThread 6%positive] /\
  retval (IsAndroidAccessibilityEnabled c st_ready) = Some true /\
  count is_java_call (trace (IsAndroidAccessibilityEnabled c st_ready))
    = 1%nat /\
  retval (HandleAndroidGesture c 0 zero zero 7 st_ready)
    = Some GESTURE_DOUBLE_TAP /\
  count is_java_call (trace (HandleAndroidGesture c 0 zero zero 7 st_ready))
    = 1%nat /\
  count is_java_call (trace (SpeakAndroidText c "hi" true st_ready))
    = 1%nat /\
  count is_java_call (trace (StopAndroidSpeech c st_ready)) = 1%nat.
Proof.
  cbn zeta. split; [repeat split; eexists; reflexivity|].
  repeat split; vm_compute; reflexivity.
Qed.

(** ** The facade *)

Lemma SpeakText_run p h text force st :
  SpeakText p h text force st =
    if negb force && String.eqb (SpokenText st) text then Ok tt st []
    else
      match p with
      | Win32 =>
          Ok tt (set_SpokenText text st)
             match ToWideChar h text with
             | Some w => [EvTolk_Output w true]
             | None => []
             end
      | Android =>
          SpeakAndroidText (thread h) text force (set_SpokenText text st)
      | Linux =>
          Ok tt (set_SpokenText text st)
             [EvSpd_say (Speechd st) SPD_TEXT (c_str text)]
      end.
Proof.
  unfold SpeakText. run.
  destruct (negb force && String.eqb (SpokenText st) text); [reflexivity|].
  destruct p; cbn.
  - now destruct (ToWideChar h text).
  - now destruct (SpeakAndroidText (thread h) text force
                    (set_SpokenText text st)).
  - reflexivity.
Qed.

(** [SpeakAndroidText] is entered once and leaves the remembered text
    alone. *)
Lemma SpeakAndroidText_entered c text force st :
  exists tr,
    trace (SpeakAndroidText c text force st) =
      Enter (CSpeakAndroidText text force) :: tr /\
    count is_speech_backend tr = 0%nat /\
    SpokenText (state_of (SpeakAndroidText c text force st)) = SpokenText st.
Proof.
  rewrite <- (trace_map_res (fun _ => VVoid)),
          <- (state_of_map_res (fun _ => VVoid)),
          <- run_call_SpeakAndroidText.
  destruct (run_call_outcome (CSpeakAndroidText text force) c st)
    as [Hno | _ _
       | st' itr _ _ _ _ (_ & _ & Hsp & _) Fi _
       | a st' itr jtr _ _ _ _ (_ & _ & Hsp & _) _ Fi Fj _
       | a jtr _ _ _ Fj _]; cbn [trace state_of]; unfold prologue, epilogue.
  all: eexists; split; [reflexivity|]; split; try assumption;
    try reflexivity.
  all: try pose proof
         (lookup_side_not is_speech_backend ltac:(by_kind) itr Fi) as Zi.
  all: try pose proof
         (java_side_not is_speech_backend ltac:(by_kind) jtr Fj) as Zj.
  all: destruct (must_attach c st); count_shape; rewrite ?Zi, ?Zj;
    reflexivity.
Qed.

(** Claim C1.  Repeating the remembered text without force is a no-op.  On every
    platform, [SpeakText] with the remembered string and [force = false]
    returns with the state unchanged and an empty trace; and two
    consecutive calls with one text and [force = false] hand at most one
    utterance to the back end. *)
Theorem SpeakText_repeat_is_noop (p : Platform) (h : Host) (st : State) :
  SpeakText p h (SpokenText st) false st = Ok tt st [] /\
  forall text,
    (count is_speech_backend
       (trace ((SpeakText p h text false;; SpeakText p h text false) st))
     <= 1)%nat.
Proof.
  assert (Hnoop : forall s, SpeakText p h (SpokenText s) false s = Ok tt s []).
  { intros s. rewrite SpeakText_run. cbn [negb andb].
    now rewrite String.eqb_refl. }
  split; [apply Hnoop|].
  intros text. rewrite trace_bind, SpeakText_run. cbn [negb andb].
  destruct (String.eqb (SpokenText st) text) eqn:Heq.
  - apply String.eqb_eq in Heq. subst text. rewrite Hnoop. cbn. lia.
  - destruct p.
    + change text with (SpokenText (set_SpokenText text st)) at 2.
      rewrite Hnoop. cbn [trace]. rewrite app_nil_r.
      destruct (ToWideChar h text); cbn; lia.
    + destruct (SpeakAndroidText_entered (thread h) text false
                  (set_SpokenText text st)) as (tr & Etr & Hn & Hsp).
      destruct (SpeakAndroidText (thread h) text false
                  (set_SpokenText text st)) as [[] st1 tr1|st1 tr1];
        cbn [trace state_of] in *; subst tr1.
      * replace text with (SpokenText st1) at 1 2 by exact Hsp.
        rewrite Hnoop. cbn [trace]. rewrite app_nil_r.
        rewrite count_cons, Hn. cbn. lia.
      * rewrite count_cons, Hn. cbn. lia.
    + change text with (SpokenText (set_SpokenText text st)) at 2.
      rewrite Hnoop. cbn. lia.
Qed.

(** Counterexample to claim C2 as stated: on Windows, when the UTF-16
    conversion of the text yields null, a forced call returns without
    [Tolk_Output]; the remembered string is updated all the same. *)
Lemma forced_SpeakText_may_skip_backend :
  let h := host_of (mkCtx 1%positive true env_good) in
  let st := set_SpokenText "x" (process_start ∅) in
  let r := SpeakText Win32 h EmptyString true st in
  ToWideChar h EmptyString = None /\
  retval r = Some tt /\
  SpokenText (state_of r) = EmptyString /\
  count is_speech_backend (trace r) = 0%nat.
Proof. cbn zeta. repeat split; reflexivity. Qed.

(** Claim C2, amended.  A call with [force = true], and likewise a call whose
    text differs from the remembered string, first stores the text in
    [SpokenText] and then hands the stored string to the back end, whether
    or not it repeats the previous utterance: [SpeakAndroidText] on Android
    and [spd_say] on Linux always; on Windows [Tolk_Output] exactly when
    [ToWideChar] of the text is non-null. *)
Theorem forced_SpeakText_reaches_backend
    (p : Platform) (h : Host) (text : string) (force : bool) (st : State) :
  force = true \/ SpokenText st <> text ->
  let r := SpeakText p h text force st in
  SpokenText (state_of r) = text /\
  match p with
  | Win32 =>
      trace r = match ToWideChar h text with
                | Some w => [EvTolk_Output w true]
                | None => []
                end
  | Android =>
      exists tr, trace r = Enter (CSpeakAndroidText text force) :: tr /\
                 count is_speech_backend tr = 0%nat
  | Linux => trace r = [EvSpd_say (Speechd st) SPD_TEXT (c_str text)]
  end.
Proof.
  intros Hgo. cbn zeta. rewrite SpeakText_run.
  assert (negb force && String.eqb (SpokenText st) text = false) as ->.
  { destruct Hgo as [->|Hne]; [reflexivity|].
    apply String.eqb_neq in Hne. rewrite Hne. now destruct force. }
  destruct p; cbn [trace state_of]; [now split| |now split].
  destruct (SpeakAndroidText_entered (thread h) text force
              (set_SpokenText text st)) as (tr & Etr & Hn & Hsp).
  split; [exact Hsp|eauto].
Qed.

(** Counterexample to claim C7 as stated: on Android [InitializeScreenReader]
    acquires nothing; it returns with the state and the trace untouched. *)
Lemma InitializeScreenReader_android_does_nothing :
  let h := host_of (mkCtx 1%positive true env_good) in
  InitializeScreenReader Android h (process_start ∅) =
    Ok tt (process_start ∅) [].
Proof. reflexivity. Qed.

(** Claim C7, amended.  [InitializeScreenReader] returns unit and always
    returns.  On Windows it calls [Tolk_Load]; on Linux it calls [spd_open]
    and keeps the result, null or not, in [Speechd]; on Android it does
    nothing, the managed side initialises text-to-speech itself. *)
Theorem InitializeScreenReader_per_platform
    (p : Platform) (h : Host) (st : State) :
  InitializeScreenReader p h st =
    match p with
    | Win32 => Ok tt st [EvTolk_Load]
    | Android => Ok tt st []
    | Linux =>
        let r := spd_open h "DevilutionX" "DevilutionX" None SPD_MODE_SINGLE in
        Ok tt (set_Speechd r st)
           [EvSpd_open "DevilutionX" "DevilutionX" None SPD_MODE_SINGLE r]
    end.
Proof. destruct p; reflexivity. Qed.

(** Claim C8.  The remembered string starts empty, so the very first
    [SpeakText] of a process, called with the empty text and no force, is
    dropped as a repetition: no back
    end is reached and nothing changes. *)
Theorem first_empty_utterance_is_dropped
    (p : Platform) (h : Host) (att : gset tid) :
  SpokenText (process_start att) = EmptyString /\
  SpeakText p h EmptyString false (process_start att) =
    Ok tt (process_start att) [].
Proof. split; reflexivity. Qed.

(** ** Concrete runs *)

Lemma attach_detach_balance_witness :
  let c := mkCtx 5%positive true env_good in
  let st := loaded {[5%positive]} in
  let r := run_call CStopAndroidSpeech c st in
  let c' := mkCtx 6%positive false env_good in
  let r' := run_call CStopAndroidSpeech c' st in
  (self c ∈ attached st /\
   count is_attach_attempt (trace r) = 0%nat /\
   count is_detach (trace r) = 0%nat /\
   self c ∈ attached (state_of r)) /\
  (attach_fails c' st /\ count is_detach (trace r') = 0%nat).
Proof.
  cbn zeta.
  assert (H : self (mkCtx 5%positive true env_good)
              ∈ attached (loaded {[5%positive]})).
  { change (5%positive ∈ ({[5%positive]} : gset tid)).
    now apply elem_of_singleton_2. }
  assert (F : attach_fails (mkCtx 6%positive false env_good)
                (loaded {[5%positive]})).
  { split; [|reflexivity].
    change (6%positive ∉ ({[5%positive]} : gset tid)).
    apply not_elem_of_singleton. discriminate. }
  split.
  - split; [exact H|].
    exact (proj1 (proj2 (proj2 (proj2
             (attach_detach_balance CStopAndroidSpeech
                (mkCtx 5%positive true env_good) (loaded {[5%positive]})))))
             H).
  - split; [exact F|].
    exact (proj1 (proj2 (proj2
             (attach_detach_balance CStopAndroidSpeech
                (mkCtx 6%positive false env_good) (loaded {[5%positive]}))))
             F).
Defined.

Lemma failures_return_defaults_witness :
  let c := mkCtx 5%positive false env_good in
  let st := loaded ∅ in
  is_Some (g_jvm st) /\
  fails CIsAndroidAccessibilityEnabled c st /\
  exists st' tr, IsAndroidAccessibilityEnabled c st = Ok false st' tr /\
                 count is_java_call tr = 0%nat.
Proof.
  cbn zeta.
  assert (Hvm : is_Some (g_jvm (loaded ∅))).
  { exists 1%positive. reflexivity. }
  assert (Hf : fails CIsAndroidAccessibilityEnabled
                 (mkCtx 5%positive false env_good) (loaded ∅)).
  { left. split; [|reflexivity].
    change (5%positive ∉ (∅ : gset tid)). apply not_elem_of_empty. }
  split; [exact Hvm|]. split; [exact Hf|].
  exact (proj1 (failures_return_defaults _ _ Hvm) Hf).
Defined.

Lemma env_good_resolves : resolves env_good.
Proof.
  exists 1%positive, 2%positive, 3%positive.
  repeat split; vm_compute; eauto.
Qed.

Lemma handles_resolved_once_witness :
  let c := mkCtx 5%positive true env_good in
  let ks := [(CIsAndroidAccessibilityEnabled, c);
             (CHandleAndroidGesture 0 (S754_zero false) (S754_zero false) 7, c);
             (CStopAndroidSpeech, c)] in
  let tr := trace (run_calls ks (loaded ∅)) in
  let ready := state_of (run_call CIsAndroidAccessibilityEnabled c (loaded ∅)) in
  (EnterInitializeJNIMethods
     ∈ trace (run_call CIsAndroidAccessibilityEnabled c (loaded ∅)) /\
   guard_of CIsAndroidAccessibilityEnabled (loaded ∅) = None) /\
  (tr = take 12 tr ++ LeaveInitializeJNIMethods true :: drop 13 tr /\
   Forall (fun e => is_resolution e = false) (drop 13 tr)) /\
  (all_resolved ready /\ state_of (run_calls ks ready) = ready) /\
  (is_Some (g_jvm (loaded ∅)) /\ ~ attach_fails c (loaded ∅) /\
   guard_of CStopAndroidSpeech (loaded ∅) = None /\ resolves (jni c) /\
   EnterInitializeJNIMethods
     ∈ trace (run_call CStopAndroidSpeech c (loaded ∅)) /\
   LeaveInitializeJNIMethods true
     ∈ trace (run_call CStopAndroidSpeech c (loaded ∅)) /\
   all_resolved (state_of (run_call CStopAndroidSpeech c (loaded ∅)))).
Proof.
  cbn zeta.
  set (c := mkCtx 5%positive true env_good).
  set (ks := [(CIsAndroidAccessibilityEnabled, c);
              (CHandleAndroidGesture 0 (S754_zero false) (S754_zero false) 7,
               c);
              (CStopAndroidSpeech, c)]).
  set (ready :=
         state_of (run_call CIsAndroidAccessibilityEnabled c (loaded ∅))).
  assert (Hin : EnterInitializeJNIMethods
                ∈ trace (run_call CIsAndroidAccessibilityEnabled c (loaded ∅))).
  { vm_compute. do 3 apply list_elem_of_further. apply list_elem_of_here. }
  assert (E : trace (run_calls ks (loaded ∅)) =
              take 12 (trace (run_calls ks (loaded ∅))) ++
              LeaveInitializeJNIMethods true ::
              drop 13 (trace (run_calls ks (loaded ∅)))).
  { vm_compute. reflexivity. }
  assert (Hall : all_resolved ready).
  { repeat split; eexists; reflexivity. }
  assert (Hvm : is_Some (g_jvm (loaded ∅))).
  { exists 1%positive. reflexivity. }
  assert (Hna : ~ attach_fails c (loaded ∅)).
  { intros [_ Hf]. discriminate Hf. }
  assert (Hg : guard_of CStopAndroidSpeech (loaded ∅) = None) by reflexivity.
  split; [|split; [|split]].
  - split; [exact Hin|].
    exact (proj1 handles_resolved_once _ _ _ Hin).
  - split; [exact E|].
    exact (proj1 (proj2 (proj2 handles_resolved_once)) ks (loaded ∅) _ _ E).
  - split; [exact Hall|].
    exact (proj1 (proj2 (proj2 (proj2 handles_resolved_once)) ks ready Hall)).
  - pose proof (proj1 (proj2 handles_resolved_once)
                  CStopAndroidSpeech c (loaded ∅) Hvm Hna Hg) as [H1 H2].
    destruct (H2 env_good_resolves) as [H3 H4].
    exact (conj Hvm (conj Hna (conj Hg (conj env_good_resolves
             (conj H1 (conj H3 H4)))))).
Defined.

Lemma env_no_gesture_does_not_resolve : ~ resolves env_no_gesture.
Proof.
  intros (amc & tc & gc & _ & _ & Hgc & _). vm_compute in Hgc. discriminate.
Qed.

Lemma InitializeJNIMethods_true_iff_resolves_witness :
  (resolves env_good /\
   retval (InitializeJNIMethods env_good (loaded ∅)) = Some true) /\
  (~ resolves env_no_gesture /\
   retval (InitializeJNIMethods env_no_gesture (loaded ∅)) = Some false).
Proof.
  split.
  - split; [exact env_good_resolves|].
    exact (proj2 (proj1 (InitializeJNIMethods_true_iff_resolves
                           env_good (loaded ∅))) env_good_resolves).
  - split; [exact env_no_gesture_does_not_resolve|].
    exact (proj2 (proj2 (InitializeJNIMethods_true_iff_resolves
                           env_no_gesture (loaded ∅)))
             env_no_gesture_does_not_resolve).
Defined.

Lemma partial_initialisation_is_kept_witness :
  let r := InitializeJNIMethods env_no_gesture (loaded ∅) in
  (retval (InitializeJNIMethods env_good (loaded ∅)) = Some true /\
   all_resolved (state_of (InitializeJNIMethods env_good (loaded ∅)))) /\
  EvGetStaticMethodID 2%positive "speak" "(Ljava/lang/String;Z)V"
    (Some 12%positive) ∈ trace r /\
  retval r = Some false /\
  handle_named "speak" (state_of r) = Some 12%positive /\
  is_Some (guard_of (CSpeakAndroidText "hi" true) (state_of r)) /\
  Forall (fun e => is_resolution e = false)
    (trace (run_call (CSpeakAndroidText "hi" true)
              (mkCtx 5%positive true env_good) (state_of r))).
Proof.
  cbn zeta.
  assert (Hin : EvGetStaticMethodID 2%positive "speak"
                  "(Ljava/lang/String;Z)V" (Some 12%positive)
                ∈ trace (InitializeJNIMethods env_no_gesture (loaded ∅))).
  { vm_compute. do 4 apply list_elem_of_further. apply list_elem_of_here. }
  assert (Hg : is_Some
                 (guard_of (CSpeakAndroidText "hi" true)
                    (state_of
                       (InitializeJNIMethods env_no_gesture (loaded ∅))))).
  { exists 12%positive. reflexivity. }
  assert (Ht : retval (InitializeJNIMethods env_good (loaded ∅)) = Some true)
    by reflexivity.
  split; [split; [exact Ht|]|].
  - exact (proj1 partial_initialisation_is_kept _ _ Ht).
  - split; [exact Hin|]. split; [reflexivity|]. split.
    + exact (proj1 (proj2 partial_initialisation_is_kept) _ _ _ _ _ _ Hin).
    + split; [exact Hg|].
      exact (proj1 (proj2 (proj2 partial_initialisation_is_kept)) _ _ _ Hg).
Defined.

Lemma gesture_failure_is_GESTURE_NONE_witness :
  let c := mkCtx 5%positive true env_no_gesture in
  let st := loaded {[5%positive]} in
  is_Some (g_jvm st) /\
  fails (CHandleAndroidGesture 0 (S754_zero false) (S754_zero false) 7) c st /\
  retval (HandleAndroidGesture c 0 (S754_zero false) (S754_zero false) 7 st)
    = Some GESTURE_NONE.
Proof.
  cbn zeta.
  assert (Hvm : is_Some (g_jvm (loaded {[5%positive]}))).
  { exists 1%positive. reflexivity. }
  assert (Hf : fails (CHandleAndroidGesture 0 (S754_zero false)
                        (S754_zero false) 7)
                 (mkCtx 5%positive true env_no_gesture)
                 (loaded {[5%positive]})).
  { right. split; [reflexivity|]. exact env_no_gesture_does_not_resolve. }
  split; [exact Hvm|]. split; [exact Hf|].
  exact (proj1 (gesture_failure_is_GESTURE_NONE _ _ _ _ _ _ Hvm Hf)).
Defined.

Lemma forced_SpeakText_reaches_backend_witness :
  let h := host_of (mkCtx 5%positive true env_good) in
  let st := set_SpokenText "hi" (process_start ∅) in
  let r := SpeakText Linux h "hi" true st in
  SpokenText (state_of r) = "hi" /\
  trace r = [EvSpd_say None SPD_TEXT "hi"].
Proof.
  cbn zeta.
  exact (forced_SpeakText_reaches_backend Linux
           (host_of (mkCtx 5%positive true env_good)) "hi" true
           (set_SpokenText "hi" (process_start ∅)) (or_introl eq_refl)).
Defined.

(** * Further properties *)
(** ** A bridge call in closed form *)

Lemma run_call_exact k c st : run_call k c st = call_summary k c st.
Proof.
  unfold call_summary.
  destruct k;
    [ rewrite run_call_IsAndroidAccessibilityEnabled
    | rewrite run_call_SpeakAndroidText
    | rewrite run_call_StopAndroidSpeech
    | rewrite run_call_IsAndroidTTSReady
    | rewrite run_call_HandleAndroidGesture ].
  all: unfold IsAndroidAccessibilityEnabled, SpeakAndroidText,
         StopAndroidSpeech, IsAndroidTTSReady, HandleAndroidGesture.
  all: rewrite (bind_Ok (emit (Enter _)) _ st tt st [Enter _] eq_refl).
  all: pose proof (GetJNIEnv_run c st) as Hget.
  all: destruct (g_jvm st) as [vm|] eqn:Hvm;
    [|rewrite (bind_Crash _ _ _ _ _ Hget); reflexivity].
  all: destruct (decide (self c ∈ attached st)) as [Hin|Hout];
    [|destruct (attach_ok c) eqn:Hatt];
    rewrite (bind_Ok _ _ _ _ _ _ Hget); clear Hget.
  all: try reflexivity.
  all: destruct (InitializeJNIMethods_run (jni c) st)
         as (ok & st2 & itr & E & _ & _ & (Hvm2 & _) & _);
       destruct (InitializeJNIMethods_run (jni c)
                   (set_attached (attached st ∪ {[self c]}) st))
         as (ok' & st2' & itr' & E' & _ & _ & (Hvm2' & _) & _).
  all: cbn [g_jvm set_attached] in Hvm2'; rewrite Hvm in Hvm2, Hvm2'.
  all: unfold finish, prepend, DetachIfAttached, JavaVM_DetachCurrentThread.
  all: cbv [mbind M_bind mret M_ret gets modify emit crash when deref
            jFindClass jGetStaticMethodID jCallStaticBooleanMethod
            jCallStaticVoidMethod jCallStaticIntMethod jNewStringUTF
            jDeleteLocalRef map_res].
  all: cbn - [InitializeJNIMethods].
  all: match goal with
       | |- context [is_null ?g] => destruct g eqn:Hg
       end; cbn - [InitializeJNIMethods].
  all: rewrite ?Hvm, ?Hg; cbn - [InitializeJNIMethods]; try reflexivity.
  all: rewrite ?E, ?E'; destruct ok, ok'; cbn - [InitializeJNIMethods].
  all: rewrite ?Hvm2, ?Hvm2', ?Hg; cbn - [InitializeJNIMethods].
  all: try reflexivity.
Qed.

(** The three ways [finish] can go. *)
Lemma finish_cases k c att st1 :
  (exists m, guard_of k st1 = Some m /\
     finish k c att st1 =
       Ok (managed_result k (jni c) st1) (settle c att st1)
          (managed_part k (jni c) st1 ++ detach_events c att))
  \/
  (guard_of k st1 = None /\ resolves (jni c) /\
   exists st2 itr,
     all_resolved st2 /\ same_runtime st1 st2 /\
     Forall (fun e => lookup_side e = true) itr /\
     finish k c att st1 =
       Ok (managed_result k (jni c) st2) (settle c att st2)
          ((EnterInitializeJNIMethods :: itr ++
            [LeaveInitializeJNIMethods true]) ++
           managed_part k (jni c) st2 ++ detach_events c att))
  \/
  (guard_of k st1 = None /\ ~ resolves (jni c) /\
   exists st2 itr,
     same_runtime st1 st2 /\
     Forall (fun e => lookup_side e = true) itr /\
     finish k c att st1 =
       Ok (default_of k) (settle c att st2)
          ((EnterInitializeJNIMethods :: itr ++
            [LeaveInitializeJNIMethods false]) ++ detach_events c att)).
Proof.
  unfold finish, detach_events.
  destruct (guard_of k st1) as [m|] eqn:Hg; [left; eauto|right].
  destruct (InitializeJNIMethods_run (jni c) st1)
    as (ok & st2 & itr & -> & Hok & Hall & Hsame & Fi & _).
  destruct ok.
  - left. split; [reflexivity|]. split; [now apply Hok|].
    exists st2, itr. auto.
  - right. split; [reflexivity|].
    split; [intros Hr; apply Hok in Hr; discriminate|].
    exists st2, itr. auto.
Qed.

Lemma managed_part_one_call k env st :
  count is_java_call (managed_part k env st) = 1%nat.
Proof. now destruct k. Qed.

Lemma managed_part_strings k env st :
  count is_new_string (managed_part k env st) =
  count is_delete_ref (managed_part k env st).
Proof. now destruct k. Qed.

Lemma managed_part_call k env st e :
  e ∈ managed_part k env st -> is_java_call e = true ->
  call_method e = guard_of k st /\
  call_args e = managed_args k /\
  call_class e = FindClass env (managed_class k) /\
  value_after e = managed_result k env st.
Proof.
  intros Hin Hj.
  destruct k; cbn in Hin;
    repeat (apply elem_of_cons in Hin as [->|Hin];
            [first [discriminate Hj | repeat split]|]);
    now apply elem_of_nil in Hin.
Qed.

Lemma managed_part_kinds k env st :
  Forall (fun e => java_side e = true) (managed_part k env st).
Proof. destruct k; repeat constructor. Qed.

Lemma managed_part_set_attached k env a st :
  managed_part k env (set_attached a st) = managed_part k env st.
Proof. now destruct k. Qed.

Lemma managed_result_set_attached k env a st :
  managed_result k env (set_attached a st) = managed_result k env st.
Proof. now destruct k. Qed.

Lemma managed_part_settle k env c att st :
  managed_part k env (settle c att st) = managed_part k env st.
Proof. destruct att; [apply managed_part_set_attached|reflexivity]. Qed.

Lemma managed_result_settle k env c att st :
  managed_result k env (settle c att st) = managed_result k env st.
Proof. destruct att; [apply managed_result_set_attached|reflexivity]. Qed.

Lemma all_resolved_settle c att st :
  all_resolved st -> all_resolved (settle c att st).
Proof. now destruct att. Qed.

Lemma settle_entered c st s :
  same_runtime (entered c st) s ->
  same_runtime st (settle c (must_attach c st) s).
Proof.
  unfold entered, settle, must_attach.
  destruct (bool_decide (self c ∉ attached st)) eqn:Hb.
  - apply bool_decide_eq_true_1 in Hb.
    intros (H1 & H2 & H3 & H4). repeat split; cbn; try assumption.
    rewrite H2. cbn. now apply union_then_difference.
  - trivial.
Qed.

Lemma settle_entered_same c st :
  settle c (must_attach c st) (entered c st) = st.
Proof.
  unfold entered, must_attach.
  destruct (bool_decide (self c ∉ attached st)) eqn:Hb; [|reflexivity].
  apply bool_decide_eq_true_1 in Hb. now apply settle_attach.
Qed.

Lemma run_call_attached k c st :
  is_Some (g_jvm st) -> ~ attach_fails c st ->
  run_call k c st =
    prepend (prologue k c st) (finish k c (must_attach c st) (entered c st)).
Proof.
  intros [vm Hvm] Hna. rewrite run_call_exact. unfold call_summary.
  rewrite Hvm. unfold prologue, entered, must_attach.
  destruct (decide (self c ∈ attached st)) as [Hin|Hout].
  - rewrite bool_decide_eq_false_2 by (intros Hn; contradiction).
    reflexivity.
  - rewrite bool_decide_eq_true_2 by assumption.
    destruct (attach_ok c) eqn:Hatt; [reflexivity|].
    exfalso. apply Hna. now split.
Qed.

(** Every bridge call, exactly. *)
Lemma call_cases k c st :
  (g_jvm st = None /\ run_call k c st = Crash st [Enter k])
  \/
  (is_Some (g_jvm st) /\ attach_fails c st /\
   run_call k c st =
     Ok (default_of k) st
        [Enter k; EvGetEnv (self c) false;
         EvAttachCurrentThread (self c) false])
  \/
  (is_Some (g_jvm st) /\ ~ attach_fails c st /\
   is_Some (guard_of k st) /\
   run_call k c st =
     Ok (managed_result k (jni c) st) st
        (prologue k c st ++ managed_part k (jni c) st ++ epilogue c st))
  \/
  (is_Some (g_jvm st) /\ ~ attach_fails c st /\
   guard_of k st = None /\ resolves (jni c) /\
   exists st2 itr,
     all_resolved st2 /\ same_runtime st st2 /\
     Forall (fun e => lookup_side e = true) itr /\
     run_call k c st =
       Ok (managed_result k (jni c) st2) st2
          (prologue k c st ++
           (EnterInitializeJNIMethods :: itr ++
            [LeaveInitializeJNIMethods true]) ++
           managed_part k (jni c) st2 ++ epilogue c st))
  \/
  (is_Some (g_jvm st) /\ ~ attach_fails c st /\
   guard_of k st = None /\ ~ resolves (jni c) /\
   exists st2 itr,
     same_runtime st st2 /\
     Forall (fun e => lookup_side e = true) itr /\
     run_call k c st =
       Ok (default_of k) st2
          (prologue k c st ++
           (EnterInitializeJNIMethods :: itr ++
            [LeaveInitializeJNIMethods false]) ++ epilogue c st)).
Proof.
  destruct (g_jvm st) as [vm|] eqn:Hvm.
  2:{ left. split; [reflexivity|]. rewrite run_call_exact.
      unfold call_summary. now rewrite Hvm. }
  right.
  assert (Hsome : is_Some (g_jvm st)) by (rewrite Hvm; eauto).
  rewrite <- Hvm.
  destruct (decide (self c ∈ attached st)) as [Hin|Hout];
    [|destruct (attach_ok c) eqn:Hatt].
  3:{ left. split; [assumption|]. split; [now split|].
      rewrite run_call_exact. unfold call_summary. rewrite Hvm.
      destruct (decide (self c ∈ attached st)); [contradiction|].
      now rewrite Hatt. }
  all: right.
  all: assert (Hna : ~ attach_fails c st)
         by (intros [? ?]; first [contradiction | congruence]).
  all: rewrite (run_call_attached k c st Hsome Hna).
  all: assert (Hg1 : guard_of k (entered c st) = guard_of k st)
         by (unfold entered; destruct (must_attach c st);
             [apply guard_of_set_attached|reflexivity]).
  all: assert (He : epilogue c st = detach_events c (must_attach c st))
         by reflexivity.
  all: destruct (finish_cases k c (must_attach c st) (entered c st))
         as [(m & Hg & ->)
            |[(Hg & Hr & st2 & itr & Hall & Hs & Fi & ->)
             |(Hg & Hr & st2 & itr & Hs & Fi & ->)]];
       rewrite Hg1 in Hg; unfold prepend; rewrite <- He.
  all: first
    [ left; repeat (split; [first [assumption | rewrite Hg; eauto]|]);
      rewrite settle_entered_same;
      replace (managed_part k (jni c) (entered c st))
        with (managed_part k (jni c) st)
        by (unfold entered; destruct (must_attach c st);
            [symmetry; apply managed_part_set_attached|reflexivity]);
      replace (managed_result k (jni c) (entered c st))
        with (managed_result k (jni c) st)
        by (unfold entered; destruct (must_attach c st);
            [symmetry; apply managed_result_set_attached|reflexivity]);
      reflexivity
    | right; left; repeat (split; [assumption|]);
      exists (settle c (must_attach c st) st2), itr;
      rewrite managed_part_settle, managed_result_settle;
      repeat split;
        first [ now apply all_resolved_settle, Hall
              | apply (settle_entered c st st2 Hs)
              | assumption
              | reflexivity ]
    | right; right; repeat (split; [assumption|]);
      exists (settle c (must_attach c st) st2), itr;
      repeat split;
        first [ apply (settle_entered c st st2 Hs)
              | assumption
              | reflexivity ] ].
Qed.

(** ** Loading, and runs of bridge calls *)

Lemma same_runtime_refl st : same_runtime st st.
Proof. repeat split. Qed.

Lemma same_runtime_trans a b c :
  same_runtime a b -> same_runtime b c -> same_runtime a c.
Proof.
  intros (A1 & A2 & A3 & A4) (B1 & B2 & B3 & B4).
  repeat split; congruence.
Qed.

Lemma call_returns k c st :
  is_Some (g_jvm st) ->
  exists v st' tr, run_call k c st = Ok v st' tr /\ same_runtime st st'.
Proof.
  intros Hvm.
  destruct (call_cases k c st)
    as [(Hno & _)
       |[(_ & _ & ->)
        |[(_ & _ & _ & ->)
         |[(_ & _ & _ & _ & st2 & itr & _ & Hs & _ & ->)
          |(_ & _ & _ & _ & st2 & itr & Hs & _ & ->)]]]].
  - rewrite Hno in Hvm. now apply is_Some_None_absurd in Hvm.
  - eauto using same_runtime_refl.
  - eauto using same_runtime_refl.
  - eauto.
  - eauto.
Qed.

Lemma calls_return ks : forall st,
  is_Some (g_jvm st) ->
  exists vs st' tr,
    run_calls ks st = Ok vs st' tr /\ same_runtime st st' /\
    length vs = length ks.
Proof.
  induction ks as [|[k c] ks IH]; intros st Hvm.
  - exists [], st, []. auto using same_runtime_refl.
  - destruct (call_returns k c st Hvm) as (v & st1 & tr1 & E1 & Hs1).
    assert (Hvm1 : is_Some (g_jvm st1)).
    { destruct Hs1 as (-> & _). exact Hvm. }
    destruct (IH st1 Hvm1) as (vs & st2 & tr2 & E2 & Hs2 & Hlen).
    exists (v :: vs), st2, (tr1 ++ tr2 ++ []).
    split; [|split].
    + cbn [run_calls]. rewrite (bind_Ok _ _ _ _ _ _ E1).
      rewrite (bind_Ok _ _ _ _ _ _ E2). reflexivity.
    + eapply same_runtime_trans; eassumption.
    + cbn. now rewrite Hlen.
Qed.

(** Extra X1.  Before [JNI_OnLoad] has stored the virtual machine, every
    bridge call stops at the null [g_jvm] right after being entered.
    [JNI_OnLoad] returns [JNI_VERSION_1_6] and changes [g_jvm] only; from
    the state it leaves, every run of bridge calls, on any threads, returns
    one value per call, and the run changes nothing but the five handles:
    [g_jvm], the attached threads, the remembered text and the speech
    connection are as before. *)
Theorem bridge_runs_after_JNI_OnLoad :
  (forall k c st,
     g_jvm st = None -> run_call k c st = Crash st [Enter k]) /\
  (forall vm st0,
     JNI_OnLoad vm st0 = Ok JNI_VERSION_1_6 (set_g_jvm (Some vm) st0) []) /\
  (forall vm st0 ks,
     exists vs st' tr,
       run_calls ks (set_g_jvm (Some vm) st0) = Ok vs st' tr /\
       length vs = length ks /\
       g_jvm st' = Some vm /\ attached st' = attached st0 /\
       SpokenText st' = SpokenText st0 /\ Speechd st' = Speechd st0).
Proof.
  split; [|split].
  - intros k c st Hno.
    destruct (call_cases k c st)
      as [(_ & E)|[(H & _)|[(H & _)|[(H & _)|(H & _)]]]];
      [exact E|..]; rewrite Hno in H; now apply is_Some_None_absurd in H.
  - reflexivity.
  - intros vm st0 ks.
    destruct (calls_return ks (set_g_jvm (Some vm) st0))
      as (vs & st' & tr & E & (H1 & H2 & H3 & H4) & Hlen).
    { exists vm. reflexivity. }
    exists vs, st', tr. repeat split; assumption.
Qed.

(** ** Order of the thread operations *)

(** Extra X2.  A call on a thread that is not attached, whose attach
    succeeds, does everything between the attach and the detach: its trace
    is entry, [GetEnv], [AttachCurrentThread], then the rest, then
    [DetachCurrentThread] as the last event, and the rest contains no
    [GetEnv], attach or detach. *)
Theorem attach_first_detach_last (k : Call) (c : Ctx) (st : State) :
  is_Some (g_jvm st) -> self c ∉ attached st -> attach_ok c = true ->
  exists mid,
    trace (run_call k c st) =
      [Enter k; EvGetEnv (self c) false;
       EvAttachCurrentThread (self c) true] ++
      mid ++ [EvDetachCurrentThread (self c)] /\
    count is_get_env mid = 0%nat /\
    count is_attach_attempt mid = 0%nat /\
    count is_detach mid = 0%nat.
Proof.
  intros Hvm Hout Hatt.
  assert (Hm : must_attach c st = true) by now apply bool_decide_eq_true_2.
  assert (Hp : prologue k c st =
               [Enter k; EvGetEnv (self c) false;
                EvAttachCurrentThread (self c) true]).
  { unfold prologue. now rewrite Hm. }
  assert (He : epilogue c st = [EvDetachCurrentThread (self c)]).
  { unfold epilogue. now rewrite Hm. }
  assert (J : forall p, (forall e, java_side e = true -> p e = false) ->
              count p (managed_part k (jni c) st) = 0%nat /\
              forall s, count p (managed_part k (jni c) s) = 0%nat).
  { intros p Hp'. split; [|intros s];
      apply (java_side_not p Hp'), managed_part_kinds. }
  destruct (call_cases k c st)
    as [(Hno & _)
       |[(_ & [_ Hf] & _)
        |[(_ & _ & _ & ->)
         |[(_ & _ & _ & _ & st2 & itr & _ & _ & Fi & ->)
          |(_ & _ & _ & _ & st2 & itr & _ & Fi & ->)]]]];
    cbn [trace]; rewrite ?Hp, ?He.
  - rewrite Hno in Hvm. now apply is_Some_None_absurd in Hvm.
  - congruence.
  - exists (managed_part k (jni c) st). split; [reflexivity|].
    repeat split; apply J; by_kind.
  - exists ((EnterInitializeJNIMethods :: itr ++
             [LeaveInitializeJNIMethods true]) ++ managed_part k (jni c) st2).
    split; [now rewrite <- !app_assoc|].
    pose proof (lookup_side_not is_get_env ltac:(by_kind) itr Fi) as Z1.
    pose proof (lookup_side_not is_attach_attempt ltac:(by_kind) itr Fi)
      as Z2.
    pose proof (lookup_side_not is_detach ltac:(by_kind) itr Fi) as Z3.
    repeat split; rewrite count_app, count_cons, count_app;
      rewrite ?Z1, ?Z2, ?Z3;
      [ rewrite (proj2 (J is_get_env ltac:(by_kind)))
      | rewrite (proj2 (J is_attach_attempt ltac:(by_kind)))
      | rewrite (proj2 (J is_detach ltac:(by_kind))) ]; reflexivity.
  - exists (EnterInitializeJNIMethods :: itr ++
            [LeaveInitializeJNIMethods false]).
    split; [reflexivity|].
    pose proof (lookup_side_not is_get_env ltac:(by_kind) itr Fi) as Z1.
    pose proof (lookup_side_not is_attach_attempt ltac:(by_kind) itr Fi)
      as Z2.
    pose proof (lookup_side_not is_detach ltac:(by_kind) itr Fi) as Z3.
    repeat split; rewrite count_cons, count_app;
      rewrite ?Z1, ?Z2, ?Z3; reflexivity.
Qed.

(** ** The managed call *)

Ltac kinds :=
  let x := fresh "ev" in intros x; destruct x; cbn; congruence.

Ltac split_counts :=
  unfold prologue, epilogue;
  rewrite ?count_app, ?count_cons, ?count_app, ?count_cons, ?count_nil.

(** Extra X3.  A bridge call invokes a managed method at most once, and
    exactly once precisely when [g_jvm] is set and neither the attach nor
    the lazy initialisation fails. *)
Theorem managed_method_called_once (k : Call) (c : Ctx) (st : State) :
  (count is_java_call (trace (run_call k c st)) <= 1)%nat /\
  (count is_java_call (trace (run_call k c st)) = 1%nat <->
   is_Some (g_jvm st) /\ ~ fails k c st).
Proof.
  destruct (call_cases k c st)
    as [(Hno & ->)
       |[(Hvm & Hf & ->)
        |[(Hvm & Hna & Hg & ->)
         |[(Hvm & Hna & Hg & Hr & st2 & itr & _ & _ & Fi & ->)
          |(Hvm & Hna & Hg & Hr & st2 & itr & _ & Fi & ->)]]]];
    cbn [trace].
  - split; [cbn; lia|]. split; [discriminate|].
    intros [H _]. rewrite Hno in H. now apply is_Some_None_absurd in H.
  - split; [cbn; lia|]. split; [discriminate|].
    intros [_ H]. exfalso. apply H. now left.
  - assert (E : count is_java_call
                  (prologue k c st ++ managed_part k (jni c) st ++
                   epilogue c st) = 1%nat).
    { split_counts. rewrite managed_part_one_call.
      destruct (must_attach c st); reflexivity. }
    rewrite E. split; [lia|]. split; [|reflexivity].
    intros _. split; [assumption|].
    intros [Hf|[Hn _]]; [contradiction|].
    rewrite Hn in Hg. now apply is_Some_None_absurd in Hg.
  - assert (E : count is_java_call
                  (prologue k c st ++
                   (EnterInitializeJNIMethods :: itr ++
                    [LeaveInitializeJNIMethods true]) ++
                   managed_part k (jni c) st2 ++ epilogue c st) = 1%nat).
    { split_counts. rewrite managed_part_one_call.
      rewrite (lookup_side_not is_java_call ltac:(kinds) itr Fi).
      destruct (must_attach c st); reflexivity. }
    rewrite E. split; [lia|]. split; [|reflexivity].
    intros _. split; [assumption|].
    intros [Hf|[_ Hn]]; contradiction.
  - assert (E : count is_java_call
                  (prologue k c st ++
                   (EnterInitializeJNIMethods :: itr ++
                    [LeaveInitializeJNIMethods false]) ++ epilogue c st)
                = 0%nat).
    { split_counts.
      rewrite (lookup_side_not is_java_call ltac:(kinds) itr Fi).
      destruct (must_attach c st); reflexivity. }
    rewrite E. split; [lia|]. split; [discriminate|].
    intros [_ H]. exfalso. apply H. right. now split.
Qed.

(** The trace of a call that does not fail. *)
Lemma working_call_trace k c st :
  is_Some (g_jvm st) -> ~ fails k c st ->
  exists pre s,
    trace (run_call k c st) =
      pre ++ managed_part k (jni c) s ++ epilogue c st /\
    count is_java_call pre = 0%nat /\
    is_Some (guard_of k s).
Proof.
  intros Hvm Hnf.
  destruct (call_cases k c st)
    as [(Hno & _)
       |[(_ & Hf & _)
        |[(_ & _ & Hg & ->)
         |[(_ & _ & _ & _ & st2 & itr & Hall & _ & Fi & ->)
          |(_ & _ & Hg & Hr & _)]]]]; cbn [trace].
  - rewrite Hno in Hvm. now apply is_Some_None_absurd in Hvm.
  - exfalso. apply Hnf. now left.
  - exists (prologue k c st), st. split; [reflexivity|]. split; [|exact Hg].
    unfold prologue. now destruct (must_attach c st).
  - exists (prologue k c st ++
            (EnterInitializeJNIMethods :: itr ++
             [LeaveInitializeJNIMethods true])), st2.
    split; [now rewrite <- !app_assoc|].
    split; [|now apply all_resolved_guard].
    split_counts.
    rewrite (lookup_side_not is_java_call ltac:(kinds) itr Fi).
    now destruct (must_attach c st).
  - exfalso. apply Hnf. right. now split.
Qed.


(** A managed call in the trace of a call that initialised lies after
    the initialisation. *)
Lemma java_call_position k c st itr b rest (e : Event) :
  Forall (fun e => lookup_side e = true) itr ->
  e ∈ prologue k c st ++
      (EnterInitializeJNIMethods :: itr ++ [LeaveInitializeJNIMethods b]) ++
      rest ++ epilogue c st ->
  is_java_call e = true ->
  e ∈ rest.
Proof.
  intros Fi Hin Hj.
  rewrite !elem_of_app, elem_of_cons, elem_of_app in Hin.
  destruct Hin as [Hin|[[->|[Hin|Hin]]|[Hin|Hin]]];
    try assumption; try discriminate; exfalso.
  - unfold prologue in Hin. destruct (must_attach c st);
      repeat (apply elem_of_cons in Hin as [->|Hin]; [discriminate|]);
      now apply elem_of_nil in Hin.
  - rewrite Forall_forall in Fi. specialize (Fi e Hin).
    destruct e; discriminate.
  - apply list_elem_of_singleton in Hin. subst. discriminate.
  - unfold epilogue in Hin. destruct (must_attach c st);
      repeat (apply elem_of_cons in Hin as [->|Hin]; [discriminate|]);
      now apply elem_of_nil in Hin.
Qed.

(** What is known of a managed call found in the trace of a bridge
    call. *)
Lemma java_call_facts k c st e :
  e ∈ trace (run_call k c st) -> is_java_call e = true ->
  is_Some (call_method e) /\
  call_method e = guard_of k (state_of (run_call k c st)) /\
  call_args e = managed_args k /\
  call_class e = FindClass (jni c) (managed_class k) /\
  retval (run_call k c st) = Some (value_after e).
Proof.
  intros Hin Hj.
  destruct (call_cases k c st)
    as [(Hno & E)
       |[(Hvm & Hf & E)
        |[(Hvm & Hna & Hg & E)
         |[(Hvm & Hna & Hg & Hr & st2 & itr & Hall & _ & Fi & E)
          |(Hvm & Hna & Hg & Hr & st2 & itr & _ & Fi & E)]]]];
    rewrite E in *; cbn [trace state_of retval] in *.
  - apply list_elem_of_singleton in Hin. subst. discriminate.
  - repeat (apply elem_of_cons in Hin as [->|Hin]; [discriminate|]).
    now apply elem_of_nil in Hin.
  - assert (Hm : e ∈ managed_part k (jni c) st).
    { rewrite !elem_of_app in Hin. destruct Hin as [Hin|[Hin|Hin]];
        [exfalso|assumption|exfalso].
      - unfold prologue in Hin. destruct (must_attach c st);
          repeat (apply elem_of_cons in Hin as [->|Hin]; [discriminate|]);
          now apply elem_of_nil in Hin.
      - unfold epilogue in Hin. destruct (must_attach c st);
          repeat (apply elem_of_cons in Hin as [->|Hin]; [discriminate|]);
          now apply elem_of_nil in Hin. }
    destruct (managed_part_call k (jni c) st e Hm Hj) as (H1 & H2 & H3 & H4).
    rewrite H1, H4. auto.
  - assert (Hm : e ∈ managed_part k (jni c) st2).
    { exact (java_call_position k c st itr true _ e Fi Hin Hj). }
    destruct (managed_part_call k (jni c) st2 e Hm Hj)
      as (H1 & H2 & H3 & H4).
    rewrite H1, H4. split; [now apply all_resolved_guard|auto].
  - exfalso.
    assert (Z : count is_java_call
                  (prologue k c st ++
                   (EnterInitializeJNIMethods :: itr ++
                    [LeaveInitializeJNIMethods false]) ++ epilogue c st)
                = 0%nat).
    { split_counts.
      rewrite (lookup_side_not is_java_call ltac:(kinds) itr Fi).
      destruct (must_attach c st); reflexivity. }
    rewrite (count_zero_elem _ _ _ Z Hin) in Hj. discriminate.
Qed.

(** Extra X4.  Whenever a bridge call reaches a managed method, the method
    handle it passes is not null and is the operation's own cached handle,
    the class is what [FindClass] just returned for the operation's class
    name (null included), and the arguments are the operation's:
    [HandleAndroidGesture] passes action, coordinates and time unchanged,
    [SpeakAndroidText] passes the force flag as 0 or 1 and the string made
    from what lies at [text.data()], whatever the size of the view: the C
    string found there, which runs past a view that is not NUL-terminated
    at its end, or null for a null pointer; the others pass nothing. *)
Theorem managed_call_uses_own_handle
    (k : Call) (c : Ctx) (st : State) (e : Event) :
  e ∈ trace (run_call k c st) -> is_java_call e = true ->
  is_Some (call_method e) /\
  call_method e = guard_of k (state_of (run_call k c st)) /\
  call_class e = FindClass (jni c) (managed_class k) /\
  call_args e = managed_args k /\
  (forall text force,
     k = CSpeakAndroidText text force ->
     call_args e =
       [match data_c_str text with Some s => JString s | None => JNull end;
        JBoolean (if force then JNI_TRUE else JNI_FALSE)]) /\
  (forall action x y time,
     k = CHandleAndroidGesture action x y time ->
     call_args e = [JInt action; JFloat x; JFloat y; JLong time]).
Proof.
  intros Hin Hj.
  destruct (java_call_facts k c st e Hin Hj) as (H1 & H2 & H3 & H4 & _).
  repeat split; try assumption.
  - intros text force ->. exact H3.
  - intros action x y time ->. exact H3.
Qed.

(** Extra X5.  The value a bridge call returns is read off its managed
    call, if it made one: the boolean operations return true only for
    [JNI_TRUE], so any other non-zero [jboolean] counts as false, and
    [HandleAndroidGesture] returns the managed result as it is, also when
    it is none of the four gesture codes. *)
Theorem return_value_follows_managed_call
    (k : Call) (c : Ctx) (st : State) (e : Event) :
  e ∈ trace (run_call k c st) -> is_java_call e = true ->
  retval (run_call k c st) = Some (value_after e).
Proof.
  intros Hin Hj.
  now destruct (java_call_facts k c st e Hin Hj) as (_ & _ & _ & _ & H).
Qed.

(** Extra X6.  The local reference that [SpeakAndroidText] creates with
    [NewStringUTF] is released on every path on which it was created: in
    the trace of any bridge call the [DeleteLocalRef] calls are as many as
    the [NewStringUTF] calls, at most one, and none when the call fails or
    the operation is not [SpeakAndroidText]. *)
Theorem string_reference_is_released (k : Call) (c : Ctx) (st : State) :
  let tr := trace (run_call k c st) in
  count is_delete_ref tr = count is_new_string tr /\
  (count is_new_string tr <= 1)%nat /\
  (count is_new_string tr = 1%nat ->
   (exists text force, k = CSpeakAndroidText text force) /\
   count is_java_call tr = 1%nat).
Proof.
  cbn zeta.
  assert (P : forall s,
            (count is_new_string (managed_part k (jni c) s) <= 1)%nat /\
            (count is_new_string (managed_part k (jni c) s) = 1%nat ->
             exists text force, k = CSpeakAndroidText text force)).
  { intros s. destruct k; cbn; split; try lia; try discriminate; eauto. }
  destruct (call_cases k c st)
    as [(Hno & ->)
       |[(Hvm & Hf & ->)
        |[(Hvm & Hna & Hg & ->)
         |[(Hvm & Hna & Hg & Hr & st2 & itr & _ & _ & Fi & ->)
          |(Hvm & Hna & Hg & Hr & st2 & itr & _ & Fi & ->)]]]];
    cbn [trace].
  1,2: cbn; repeat split; try lia; discriminate.
  all: try pose proof
         (lookup_side_not is_new_string ltac:(kinds) itr Fi) as Z1.
  all: try pose proof
         (lookup_side_not is_delete_ref ltac:(kinds) itr Fi) as Z2.
  all: try pose proof
         (lookup_side_not is_java_call ltac:(kinds) itr Fi) as Z3.
  all: split_counts; rewrite ?Z1, ?Z2, ?Z3, ?managed_part_one_call,
         <- ?managed_part_strings.
  all: try destruct (P st) as [P1 P2]; try destruct (P st2) as [P1' P2'].
  all: destruct (must_attach c st); cbn.
  all: repeat split; try lia.
  all: first [apply P2; lia | apply P2'; lia].
Qed.

(** ** More on InitializeJNIMethods *)

Ltac absurd_lookup :=
  match goal with
  | H : is_Some None |- _ => now apply is_Some_None_absurd in H
  | H : is_Some ?x, E : ?x = None |- _ =>
      rewrite E in H; now apply is_Some_None_absurd in H
  end.

(** The first method handle after [InitializeJNIMethods]. *)
Lemma init_stores_first (env : JNIEnv) (st : State) (amc : jclass) :
  FindClass env AccessibilityManager_class = Some amc ->
  g_isScreenReaderEnabled (state_of (InitializeJNIMethods env st)) =
    GetStaticMethodID env amc "isScreenReaderEnabled" "()Z".
Proof.
  unfold InitializeJNIMethods, InitializeJNIMethods_body. run.
  repeat (case_lookup; cbn).
  all: intros; simplify_eq; congruence.
Qed.

(** Extra X7.  [InitializeJNIMethods] stores the result of every method
    lookup it reaches, a null result included, so a run that fails can
    replace a handle that was set by null.  When the first class is
    missing nothing is written at all; the three text-to-speech lookups
    are all made and stored even when the first of them fails. *)
Theorem InitializeJNIMethods_stores_every_lookup (env : JNIEnv) (st : State) :
  let st' := state_of (InitializeJNIMethods env st) in
  (FindClass env AccessibilityManager_class = None -> st' = st) /\
  (forall amc,
     FindClass env AccessibilityManager_class = Some amc ->
     g_isScreenReaderEnabled st' =
       GetStaticMethodID env amc "isScreenReaderEnabled" "()Z") /\
  (forall amc tc,
     FindClass env AccessibilityManager_class = Some amc ->
     is_Some (GetStaticMethodID env amc "isScreenReaderEnabled" "()Z") ->
     FindClass env AndroidTextToSpeech_class = Some tc ->
     g_speak st' = GetStaticMethodID env tc "speak" "(Ljava/lang/String;Z)V" /\
     g_stop st' = GetStaticMethodID env tc "stop" "()V" /\
     g_isReady st' = GetStaticMethodID env tc "isReady" "()Z") /\
  (forall amc tc gc,
     FindClass env AccessibilityManager_class = Some amc ->
     is_Some (GetStaticMethodID env amc "isScreenReaderEnabled" "()Z") ->
     FindClass env AndroidTextToSpeech_class = Some tc ->
     is_Some (GetStaticMethodID env tc "speak" "(Ljava/lang/String;Z)V") ->
     is_Some (GetStaticMethodID env tc "stop" "()V") ->
     is_Some (GetStaticMethodID env tc "isReady" "()Z") ->
     FindClass env GestureDetector_class = Some gc ->
     g_handleGesture st' = GetStaticMethodID env gc "handleGesture" "(IFFJ)I").
Proof.
  cbn zeta. unfold InitializeJNIMethods, InitializeJNIMethods_body. run.
  repeat (case_lookup; cbn).
  all: repeat split; intros; simplify_eq; try absurd_lookup;
    congruence.
Qed.

(** Extra X9.  [InitializeJNIMethods] only looks things up: it always
    returns, makes at most three [FindClass] and five [GetStaticMethodID]
    calls (all eight when it returns true), never attaches, detaches or
    calls a managed method, and writes nothing but the five handles. *)
Theorem InitializeJNIMethods_only_looks_up (env : JNIEnv) (st : State) :
  let r := InitializeJNIMethods env st in
  is_Some (retval r) /\
  same_runtime st (state_of r) /\
  (count is_find_class (trace r) <= 3)%nat /\
  (count is_get_method (trace r) <= 5)%nat /\
  (retval r = Some true ->
   count is_find_class (trace r) = 3%nat /\
   count is_get_method (trace r) = 5%nat) /\
  count is_java_call (trace r) = 0%nat /\
  count is_attach_attempt (trace r) = 0%nat /\
  count is_detach (trace r) = 0%nat.
Proof.
  cbn zeta. unfold InitializeJNIMethods, InitializeJNIMethods_body. run.
  repeat (case_lookup; cbn).
  all: repeat split; eauto; try lia; try discriminate.
Qed.

Lemma state_of_prepend {A} pre (r : Res A) :
  state_of (prepend pre r) = state_of r.
Proof. now destruct r. Qed.

Lemma retval_prepend {A} pre (r : Res A) : retval (prepend pre r) = retval r.
Proof. now destruct r. Qed.

(** Extra X8.  A failed lazy initialisation started by one operation can
    disable another: when an operation whose own handle is still null runs
    [InitializeJNIMethods] on a thread whose environment finds the
    [AccessibilityManager] class but not its [isScreenReaderEnabled]
    method, the call returns its default and [g_isScreenReaderEnabled] is
    null afterwards, whatever it was before. *)
Theorem failed_initialisation_clears_a_handle
    (k : Call) (c : Ctx) (st : State) (amc : jclass) :
  is_Some (g_jvm st) -> ~ attach_fails c st ->
  guard_of k st = None ->
  FindClass (jni c) AccessibilityManager_class = Some amc ->
  GetStaticMethodID (jni c) amc "isScreenReaderEnabled" "()Z" = None ->
  retval (run_call k c st) = Some (default_of k) /\
  g_isScreenReaderEnabled (state_of (run_call k c st)) = None.
Proof.
  intros Hvm Hna Hg Hc Hm.
  rewrite (run_call_attached k c st Hvm Hna).
  rewrite state_of_prepend, retval_prepend. unfold finish.
  assert (Hg1 : guard_of k (entered c st) = None).
  { unfold entered. destruct (must_attach c st);
      [now rewrite guard_of_set_attached|assumption]. }
  rewrite Hg1.
  pose proof (init_stores_first (jni c) (entered c st) amc Hc) as Hs.
  rewrite Hm in Hs.
  destruct (InitializeJNIMethods_run (jni c) (entered c st))
    as (ok & st2 & itr & E & Hok & _).
  rewrite E in *. cbn [state_of] in Hs.
  assert (ok = false) as ->.
  { destruct ok; [|reflexivity]. exfalso.
    destruct (proj1 Hok eq_refl) as (a & tc & gc & Ha & _ & _ & Hi & _).
    rewrite Hc in Ha. injection Ha as Ha. subst a. rewrite Hm in Hi.
    now apply is_Some_None_absurd in Hi. }
  cbn [retval state_of]. split; [reflexivity|].
  unfold settle. destruct (must_attach c st); exact Hs.
Qed.

(** ** More on the facade *)

Lemma SpeakText_remembers p h text force st :
  SpokenText (state_of (SpeakText p h text force st)) = text.
Proof.
  rewrite SpeakText_run.
  destruct (negb force && String.eqb (SpokenText st) text) eqn:Hd.
  - apply andb_true_iff in Hd as [_ Hd]. now apply String.eqb_eq in Hd.
  - destruct p; try reflexivity.
    now destruct (SpeakAndroidText_entered (thread h) text force
                    (set_SpokenText text st)) as (_ & _ & _ & ->).
Qed.

Lemma SpeakText_noop p h s :
  SpeakText p h (SpokenText s) false s = Ok tt s [].
Proof.
  rewrite SpeakText_run. cbn [negb andb]. now rewrite String.eqb_refl.
Qed.

Lemma SpeakAndroidText_trace c text force st :
  trace (SpeakAndroidText c text force st) =
  trace (run_call (CSpeakAndroidText text force) c st).
Proof. now rewrite run_call_SpeakAndroidText, trace_map_res. Qed.

(** Extra X10.  The text is remembered whether or not it was spoken.
    After any [SpeakText] the remembered string is the text of that call,
    so the same text without force is then dropped; when the Windows
    conversion yields null, or the Android bridge fails, the utterance and
    its non-forced retry both end without anything reaching [Tolk_Output]
    or the managed [speak]. *)
Theorem failed_utterance_is_remembered :
  (forall p h text force st,
     let s := state_of (SpeakText p h text force st) in
     SpokenText s = text /\ SpeakText p h text false s = Ok tt s []) /\
  (forall h text force st,
     ToWideChar h text = None ->
     trace ((SpeakText Win32 h text force;;
             SpeakText Win32 h text false) st) = []) /\
  (forall h (text : string) force st,
     is_Some (g_jvm st) ->
     fails (CSpeakAndroidText text force) (thread h) st ->
     count is_java_call
       (trace ((SpeakText Android h text force;;
                SpeakText Android h text false) st)) = 0%nat).
Proof.
  split; [|split].
  - intros p h text force st. cbn zeta.
    pose proof (SpeakText_remembers p h text force st) as Hs.
    split; [exact Hs|].
    rewrite <- Hs at 1. apply SpeakText_noop.
  - intros h text force st Hw. rewrite trace_bind.
    pose proof (SpeakText_remembers Win32 h text force st) as Hs.
    rewrite SpeakText_run in *. rewrite Hw in *.
    destruct (negb force && String.eqb (SpokenText st) text);
      cbn [state_of] in Hs; rewrite <- Hs at 1; now rewrite SpeakText_noop.
  - intros h text force st Hvm Hf. rewrite trace_bind.
    pose proof (SpeakText_remembers Android h text force st) as Hs.
    rewrite SpeakText_run in *.
    destruct (negb force && String.eqb (SpokenText st) text).
    + cbn [state_of] in Hs. rewrite <- Hs at 1. now rewrite SpeakText_noop.
    + destruct (failure_default (CSpeakAndroidText text force) (thread h)
                  (set_SpokenText text st) Hvm Hf) as (st' & tr & E & Hn).
      rewrite run_call_SpeakAndroidText in E.
      apply map_res_Ok_inv in E as ([] & E & _).
      rewrite E in *. cbn [state_of] in Hs.
      rewrite <- Hs at 1. rewrite SpeakText_noop. cbn [trace].
      now rewrite app_nil_r.
Qed.

(** Extra X11.  Shutting down keeps what was stored.  On Linux [spd_close]
    receives the connection that [spd_open] returned, null or not, and
    [Speechd] still holds it afterwards, so a later [SpeakText] passes the
    closed connection to [spd_say].  On every platform the remembered text
    survives [ShutDownScreenReader] and [InitializeScreenReader]: the text
    spoken last before a restart is still dropped after it. *)
Theorem shutdown_keeps_connection_and_memory :
  (forall h st text,
     SpokenText st <> text ->
     let r := spd_open h "DevilutionX" "DevilutionX" None SPD_MODE_SINGLE in
     trace ((InitializeScreenReader Linux h;;
             ShutDownScreenReader Linux h;;
             SpeakText Linux h text false) st) =
       [EvSpd_open "DevilutionX" "DevilutionX" None SPD_MODE_SINGLE r;
        EvSpd_close r; EvSpd_say r SPD_TEXT (c_str text)]) /\
  (forall p h st,
     let r := (ShutDownScreenReader p h;;
               InitializeScreenReader p h;;
               SpeakText p h (SpokenText st) false) st in
     count is_speech_backend (trace r) = 0%nat /\
     SpokenText (state_of r) = SpokenText st /\
     retval r = Some tt).
Proof.
  split.
  - intros h st text Hne. cbn zeta.
    rewrite trace_bind. cbn [InitializeScreenReader].
    unfold ShutDownScreenReader. run.
    rewrite SpeakText_run. cbn [negb andb SpokenText set_Speechd].
    apply String.eqb_neq in Hne. rewrite Hne. reflexivity.
  - intros p h st. cbn zeta.
    destruct p; unfold ShutDownScreenReader, InitializeScreenReader; run;
      rewrite SpeakText_run; cbn [negb andb SpokenText set_Speechd];
      rewrite String.eqb_refl; cbn; auto.
Qed.

Lemma c_str_NUL_free s : NUL_free (c_str s).
Proof.
  induction s as [|a s IH]; [exact I|]. cbn [c_str].
  destruct (Ascii.eqb a Ascii.zero) eqn:E; [exact I|].
  split; [now apply Ascii.eqb_neq|exact IH].
Qed.

Lemma c_str_cut s : forall rest,
  NUL_free s -> c_str (s ++ String Ascii.zero rest)%string = s.
Proof.
  induction s as [|a s IH]; intros rest Hs; [reflexivity|].
  destruct Hs as [Ha Hs]. apply Ascii.eqb_neq in Ha.
  change (c_str (String a (s ++ String Ascii.zero rest)%string) = String a s).
  cbn [c_str]. rewrite Ha. now rewrite IH.
Qed.

Lemma c_str_id s : NUL_free s -> c_str s = s.
Proof.
  induction s as [|a s IH]; [reflexivity|]. intros [Ha Hs]. cbn [c_str].
  apply Ascii.eqb_neq in Ha. rewrite Ha. now rewrite IH.
Qed.

Lemma c_str_cuts text : cut_at_NUL text (c_str text).
Proof.
  split; [apply c_str_NUL_free|]. split; [apply c_str_id|].
  intros s rest Hs ->. now apply c_str_cut.
Qed.

(** Only [SpeakAndroidText] calls [NewStringUTF], on what lies at
    [data()] of its text. *)
Lemma new_string_in_call k c st utf :
  EvNewStringUTF utf ∈ trace (run_call k c st) ->
  exists text force, k = CSpeakAndroidText text force /\ utf = data_c_str text.
Proof.
  assert (P : forall pre, pre = prologue k c st \/ pre = epilogue c st ->
            EvNewStringUTF utf ∈ pre -> False).
  { intros pre [->| ->] Hin; unfold prologue, epilogue in Hin;
      destruct (must_attach c st);
      repeat (apply elem_of_cons in Hin as [Hin|Hin]; [discriminate|]);
      now apply elem_of_nil in Hin. }
  assert (I : forall itr b, Forall (fun e => lookup_side e = true) itr ->
            EvNewStringUTF utf
              ∈ EnterInitializeJNIMethods :: itr ++
                [LeaveInitializeJNIMethods b] -> False).
  { intros itr b Fi Hin.
    apply elem_of_cons in Hin as [Hin|Hin]; [discriminate|].
    apply elem_of_app in Hin as [Hin|Hin].
    - rewrite Forall_forall in Fi. specialize (Fi _ Hin). discriminate.
    - apply list_elem_of_singleton in Hin. discriminate. }
  assert (M : forall s, EvNewStringUTF utf ∈ managed_part k (jni c) s ->
            exists text force,
              k = CSpeakAndroidText text force /\ utf = data_c_str text).
  { intros s Hin. destruct k; cbn in Hin;
      repeat (apply elem_of_cons in Hin as [Hin|Hin];
              [first [discriminate | injection Hin as ->; eauto]|]);
      now apply elem_of_nil in Hin. }
  intros Hin.
  destruct (call_cases k c st)
    as [(_ & E)
       |[(_ & _ & E)
        |[(_ & _ & _ & E)
         |[(_ & _ & _ & _ & st2 & itr & _ & _ & Fi & E)
          |(_ & _ & _ & _ & st2 & itr & _ & Fi & E)]]]];
    rewrite E in Hin; cbn [trace] in Hin.
  - apply list_elem_of_singleton in Hin. discriminate.
  - repeat (apply elem_of_cons in Hin as [Hin|Hin]; [discriminate|]).
    now apply elem_of_nil in Hin.
  - rewrite !elem_of_app in Hin. destruct Hin as [Hin|[Hin|Hin]];
      [exfalso; eapply P; [|exact Hin]; auto|now apply (M st)|exfalso; eapply P; [|exact Hin]; auto].
  - rewrite !elem_of_app in Hin. destruct Hin as [Hin|[Hin|[Hin|Hin]]];
      [exfalso; eapply P; [|exact Hin]; auto
      |exfalso; exact (I itr true Fi Hin)
      |now apply (M st2)|exfalso; eapply P; [|exact Hin]; auto].
  - rewrite !elem_of_app in Hin. destruct Hin as [Hin|[Hin|Hin]];
      [exfalso; eapply P; [|exact Hin]; auto
      |exfalso; exact (I itr false Fi Hin)
      |exfalso; eapply P; [|exact Hin]; auto].
Qed.

(** Extra X12.  A text spoken through [SpeakText] reaches the back end cut
    at its first NUL.  What [spd_say] receives on Linux, and what
    [NewStringUTF] receives on Android, is free of NUL, is the whole text
    when that has no NUL, and is the part before the NUL otherwise.  The
    suppression of repetitions compares whole strings, so on Linux two
    different texts that agree up to their first NUL are both spoken, with
    the same words. *)
Theorem text_is_cut_at_first_NUL :
  (forall h st text force,
     force = true \/ SpokenText st <> text ->
     exists z,
       trace (SpeakText Linux h text force st) =
         [EvSpd_say (Speechd st) SPD_TEXT z] /\
       cut_at_NUL text z) /\
  (forall h st text force utf,
     EvNewStringUTF utf ∈ trace (SpeakText Android h text force st) ->
     exists z, utf = Some z /\ cut_at_NUL text z) /\
  (forall h st t1 t2,
     SpokenText st <> t1 -> t1 <> t2 -> c_str t1 = c_str t2 ->
     trace ((SpeakText Linux h t1 false;; SpeakText Linux h t2 false) st) =
       [EvSpd_say (Speechd st) SPD_TEXT (c_str t1);
        EvSpd_say (Speechd st) SPD_TEXT (c_str t1)]).
Proof.
  split; [|split].
  - intros h st text force Hgo. exists (c_str text).
    split; [|apply c_str_cuts].
    rewrite SpeakText_run.
    assert (negb force && String.eqb (SpokenText st) text = false) as ->.
    { destruct Hgo as [->|Hne]; [reflexivity|].
      apply String.eqb_neq in Hne. rewrite Hne. now destruct force. }
    reflexivity.
  - intros h st text force utf Hin. exists (c_str text).
    split; [|apply c_str_cuts].
    rewrite SpeakText_run in Hin.
    destruct (negb force && String.eqb (SpokenText st) text).
    + now apply elem_of_nil in Hin.
    + rewrite SpeakAndroidText_trace in Hin.
      apply new_string_in_call in Hin as (text' & force' & Hk & ->).
      injection Hk as <- _. reflexivity.
  - intros h st t1 t2 H1 H2 Hc. apply String.eqb_neq in H1, H2.
    rewrite trace_bind, SpeakText_run. cbn [negb andb]. rewrite H1.
    rewrite SpeakText_run.
    cbn [negb andb SpokenText set_SpokenText Speechd trace].
    rewrite H2, Hc. reflexivity.
Qed.

(** Extra X13.  From [SpeakText] to the managed [speak].  On Android, a
    forced or changed utterance on a working bridge calls the managed
    [speak] method exactly once, with a non-null handle, the text up to its
    first NUL, and the force flag as 1 or 0. *)
Theorem SpeakText_android_end_to_end
    (h : Host) (text : string) (force : bool) (st : State) :
  force = true \/ SpokenText st <> text ->
  is_Some (g_jvm st) ->
  ~ fails (CSpeakAndroidText text force) (thread h) st ->
  let tr := trace (SpeakText Android h text force st) in
  count is_java_call tr = 1%nat /\
  exists cls m,
    EvCallStaticVoidMethod cls (Some m)
      [JString (c_str text);
       JBoolean (if force then JNI_TRUE else JNI_FALSE)] ∈ tr.
Proof.
  intros Hgo Hvm Hnf. cbn zeta. rewrite SpeakText_run.
  assert (negb force && String.eqb (SpokenText st) text = false) as ->.
  { destruct Hgo as [->|Hne]; [reflexivity|].
    apply String.eqb_neq in Hne. rewrite Hne. now destruct force. }
  rewrite SpeakAndroidText_trace.
  set (k := CSpeakAndroidText text force).
  set (st1 := set_SpokenText text st).
  assert (Hvm1 : is_Some (g_jvm st1)) by exact Hvm.
  assert (Hnf1 : ~ fails k (thread h) st1) by exact Hnf.
  destruct (working_call_trace k (thread h) st1 Hvm1 Hnf1)
    as (pre & s & -> & Hpre & [m Hm]).
  split.
  - rewrite !count_app, Hpre, managed_part_one_call.
    unfold epilogue. now destruct (must_attach (thread h) st1).
  - exists (FindClass (jni (thread h)) AndroidTextToSpeech_class), m.
    rewrite !elem_of_app. right. left.
    unfold k in *. cbn in Hm |- *. rewrite Hm.
    do 2 apply list_elem_of_further. apply list_elem_of_here.
Qed.

(** ** The JNI entry points *)

Lemma ncount_bridge p tr :
  (forall e, p (NvBridge e) = false) -> ncount p (map NvBridge tr) = 0%nat.
Proof.
  intros Hp. induction tr as [|e tr IH]; [reflexivity|].
  unfold ncount in *. cbn. now rewrite Hp.
Qed.

Lemma ncount_app p l1 l2 :
  ncount p (l1 ++ l2) = (ncount p l1 + ncount p l2)%nat.
Proof. unfold ncount. now rewrite List.filter_app, length_app. Qed.

Lemma SpeakAndroidText_returns c text force st :
  is_Some (g_jvm st) ->
  exists st' tr, SpeakAndroidText c text force st = Ok tt st' tr.
Proof.
  intros Hvm.
  destruct (call_returns (CSpeakAndroidText text force) c st Hvm)
    as (v & st' & tr & E & _).
  rewrite run_call_SpeakAndroidText in E.
  apply map_res_Ok_inv in E as ([] & E & _). eauto.
Qed.

(** Extra X14.  The [speak] entry point.  A null [jstring] returns at once,
    and so does a failed [GetStringUTFChars], without entering the bridge.
    Otherwise [SpeakAndroidText] is entered once, with the characters up to
    their first NUL and with force only for [JNI_TRUE] (any other
    [jboolean] is no force); with [g_jvm] set the characters are released
    exactly when they were obtained, whatever the bridge call does.  The
    entry point never touches the remembered text of [SpeakText]. *)
Theorem speak_entry_point
    (G : jstring -> option string) (c : Ctx) (text : option jstring)
    (force : jboolean) (st : State) :
  let r :=
    Java_org_diasurgical_devilutionx_AndroidTextToSpeech_speak
      G c text force st in
  (text = None -> r = NOk tt st []) /\
  (forall t, text = Some t -> G t = None ->
     r = NOk tt st [NvGetStringUTFChars t None]) /\
  (forall t u, text = Some t -> G t = Some u ->
     exists rest,
       ntrace r =
         NvGetStringUTFChars t (Some u) ::
         NvBridge (Enter (CSpeakAndroidText (c_str u) (Z.eqb force JNI_TRUE)))
         :: rest) /\
  (is_Some (g_jvm st) ->
     (exists st', r = NOk tt st' (ntrace r)) /\
     ncount is_release_chars (ntrace r) = ncount is_get_chars (ntrace r)) /\
  SpokenText (nstate_of r) = SpokenText st.
Proof.
  cbn zeta.
  unfold Java_org_diasurgical_devilutionx_AndroidTextToSpeech_speak.
  destruct text as [t|]; [|repeat split; eauto; discriminate].
  destruct (G t) as [u|] eqn:HG;
    [|repeat split; intros; simplify_eq; eauto].
  destruct (SpeakAndroidText_entered c (c_str u) (Z.eqb force JNI_TRUE) st)
    as (tr' & Etr & _ & Hsp).
  split; [discriminate|]. split; [intros; simplify_eq|].
  split; [|split].
  - intros t' u' Ht Hu. simplify_eq.
    destruct (SpeakAndroidText _ _ _ _);
      cbn [trace ntrace] in *; subst; cbn; eauto.
  - intros Hvm.
    destruct (SpeakAndroidText_returns c (c_str u) (Z.eqb force JNI_TRUE)
                st Hvm) as (st' & tr & ->).
    cbn [ntrace]. split; [eauto|].
    change (NvGetStringUTFChars t (Some u) ::
            map NvBridge tr ++ [NvReleaseStringUTFChars t u])
      with ([NvGetStringUTFChars t (Some u)] ++
            map NvBridge tr ++ [NvReleaseStringUTFChars t u]).
    rewrite !ncount_app, !ncount_bridge by reflexivity. reflexivity.
  - destruct (SpeakAndroidText c (c_str u) (Z.eqb force JNI_TRUE) st);
      exact Hsp.
Qed.

Lemma run_call_isReady_value c st :
  retval (IsAndroidTTSReady c st) = Some true <->
  retval (run_call CIsAndroidTTSReady c st) = Some (VBool true).
Proof.
  rewrite run_call_IsAndroidTTSReady, retval_map_res.
  destruct (retval (IsAndroidTTSReady c st)) as [[]|]; cbn;
    split; intros H; congruence.
Qed.

(** Extra X15.  The [isReady] entry point answers [JNI_TRUE] exactly when
    the managed [isReady] was called and returned [JNI_TRUE]; in every
    other case in which it returns, bridge failure included, it answers
    [JNI_FALSE]. *)
Theorem isReady_entry_point (c : Ctx) (st : State) :
  let r :=
    Java_org_diasurgical_devilutionx_AndroidTextToSpeech_isReady c st in
  (retval r = Some JNI_TRUE \/ retval r = Some JNI_FALSE \/
   (retval r = None /\ g_jvm st = None)) /\
  (retval r = Some JNI_TRUE <->
   exists cls m, EvCallStaticBooleanMethod cls m JNI_TRUE ∈ trace r).
Proof.
  cbn zeta.
  unfold Java_org_diasurgical_devilutionx_AndroidTextToSpeech_isReady.
  assert (Hr : forall st0,
            (fun st => (IsAndroidTTSReady c ≫= fun ready : bool =>
               mret (if ready then JNI_TRUE else JNI_FALSE)) st) st0 =
            map_res (fun ready : bool => if ready then JNI_TRUE else JNI_FALSE)
                    (IsAndroidTTSReady c st0)).
  { intros st0. apply bind_ret_map. }
  rewrite (Hr st). rewrite retval_map_res, trace_map_res.
  rewrite <- (trace_map_res VBool), <- run_call_IsAndroidTTSReady.
  pose proof (run_call_isReady_value c st) as Hv.
  split.
  - destruct (g_jvm st) as [vm|] eqn:Hvm.
    + destruct (call_returns CIsAndroidTTSReady c st) as (v & s & tr & E & _).
      { rewrite Hvm. eauto. }
      rewrite run_call_IsAndroidTTSReady in E.
      apply map_res_Ok_inv in E as (b & -> & _). cbn.
      destruct b; auto.
    + destruct (retval (IsAndroidTTSReady c st)) as [[]|]; cbn; auto.
  - split.
    + intros H.
      assert (Ht : retval (IsAndroidTTSReady c st) = Some true).
      { destruct (retval (IsAndroidTTSReady c st)) as [[]|];
          cbn in H; [reflexivity|inversion H|discriminate]. }
      apply Hv in Ht.
      destruct (call_cases CIsAndroidTTSReady c st)
        as [(_ & E)
           |[(_ & _ & E)
            |[(_ & _ & _ & E)
             |[(_ & _ & _ & _ & st2 & itr & _ & _ & _ & E)
              |(_ & _ & _ & _ & st2 & itr & _ & _ & E)]]]];
        rewrite E in Ht |- *; cbn [retval trace] in *;
        try discriminate.
      * injection Ht as Ht. apply Z.eqb_eq in Ht.
        eexists _, _. rewrite !elem_of_app. right. left.
        cbn. apply list_elem_of_further. rewrite Ht.
        apply list_elem_of_here.
      * injection Ht as Ht. apply Z.eqb_eq in Ht.
        eexists _, _. rewrite !elem_of_app. right. right. left.
        cbn. apply list_elem_of_further. rewrite Ht.
        apply list_elem_of_here.
    + intros (cls & m & Hin).
      pose proof (java_call_facts CIsAndroidTTSReady c st _ Hin eq_refl)
        as (_ & _ & _ & _ & Hret).
      cbn in Hret. apply Hv in Hret. now rewrite Hret.
Qed.

Lemma to_signed_small w z :
  0 < w -> - 2 ^ (w - 1) <= z < 2 ^ (w - 1) -> to_signed w z = z.
Proof.
  intros Hw Hz. unfold to_signed.
  assert (E : 2 ^ w = 2 * 2 ^ (w - 1)).
  { replace w with (Z.succ (w - 1)) at 1 by lia. apply Z.pow_succ_r. lia. }
  rewrite Z.mod_small by lia. lia.
Qed.

Lemma to_signed_range w z :
  0 < w -> - 2 ^ (w - 1) <= to_signed w z < 2 ^ (w - 1).
Proof.
  intros Hw. unfold to_signed.
  assert (E : 2 ^ w = 2 * 2 ^ (w - 1)).
  { replace w with (Z.succ (w - 1)) at 1 by lia. apply Z.pow_succ_r. lia. }
  assert (0 < 2 ^ (w - 1)) by (apply Z.pow_pos_nonneg; lia).
  pose proof (Z.mod_pos_bound (z + 2 ^ (w - 1)) (2 ^ w) ltac:(lia)). lia.
Qed.

(** Extra X16.  The [handleGesture] entry point narrows the 64-bit time
    stamp to the C [long] of the target.  Where [long] has 64 bits every
    [jlong] reaches [HandleAndroidGesture] unchanged; where it has 32 bits
    only time stamps within the 32-bit range do, and any other is replaced
    by a different value inside that range. *)
Theorem handleGesture_entry_point_narrows_time
    (abi : ABI) (c : Ctx) (action : jint) (x y : jfloat) (time : jlong) :
  - 2 ^ 63 <= time < 2 ^ 63 ->
  let entry :=
    Java_org_diasurgical_devilutionx_GestureDetector_handleGesture
      abi c action x y time in
  (abi = LP64 \/ - 2 ^ 31 <= time < 2 ^ 31 ->
   entry = HandleAndroidGesture c action x y time) /\
  (abi = ILP32 -> ~ (- 2 ^ 31 <= time < 2 ^ 31) ->
   exists time',
     time' <> time /\ - 2 ^ 31 <= time' < 2 ^ 31 /\
     entry = HandleAndroidGesture c action x y time').
Proof.
  intros Hr. cbn zeta.
  unfold Java_org_diasurgical_devilutionx_GestureDetector_handleGesture.
  split.
  - intros H. f_equal. destruct abi; cbn [long_bits].
    + destruct H as [H|H]; [discriminate|].
      now apply to_signed_small.
    + now apply to_signed_small.
  - intros -> Hout. cbn [long_bits].
    exists (to_signed 32 time).
    pose proof (to_signed_range 32 time ltac:(lia)) as Hb.
    change (32 - 1) with 31 in Hb.
    split; [|split; [exact Hb|reflexivity]].
    intros E. rewrite E in Hb. contradiction.
Qed.

(** ** Concrete runs of the further properties *)

Lemma bridge_runs_after_JNI_OnLoad_witness :
  let c := mkCtx 5%positive true env_good in
  g_jvm (process_start ∅) = None /\
  run_call CStopAndroidSpeech c (process_start ∅) =
    Crash (process_start ∅) [Enter CStopAndroidSpeech].
Proof.
  cbn zeta. split; [reflexivity|].
  exact (proj1 bridge_runs_after_JNI_OnLoad CStopAndroidSpeech
           (mkCtx 5%positive true env_good) (process_start ∅) eq_refl).
Defined.

Lemma five_not_in_empty : (5%positive : tid) ∉ (∅ : gset tid).
Proof. apply not_elem_of_empty. Qed.

Lemma five_in_five : (5%positive : tid) ∈ ({[5%positive]} : gset tid).
Proof. now apply elem_of_singleton_2. Qed.

Lemma loaded_has_vm att : is_Some (g_jvm (loaded att)).
Proof. exists 1%positive. reflexivity. Qed.

Lemma attach_first_detach_last_witness :
  let c := mkCtx 5%positive true env_good in
  exists mid,
    trace (run_call CStopAndroidSpeech c (loaded ∅)) =
      [Enter CStopAndroidSpeech; EvGetEnv 5%positive false;
       EvAttachCurrentThread 5%positive true] ++
      mid ++ [EvDetachCurrentThread 5%positive] /\
    count is_get_env mid = 0%nat /\
    count is_attach_attempt mid = 0%nat /\
    count is_detach mid = 0%nat.
Proof.
  exact (attach_first_detach_last CStopAndroidSpeech
           (mkCtx 5%positive true env_good) (loaded ∅)
           (loaded_has_vm ∅) five_not_in_empty eq_refl).
Defined.

Lemma ready_does_not_fail k :
  ~ fails k (mkCtx 5%positive true env_good) st_ready.
Proof.
  intros [[Hn _]|[Hg _]].
  - apply Hn. exact five_in_five.
  - destruct k; discriminate.
Qed.

Lemma managed_method_called_once_witness :
  let c := mkCtx 5%positive true env_good in
  (is_Some (g_jvm st_ready) /\ ~ fails CIsAndroidTTSReady c st_ready) /\
  count is_java_call (trace (run_call CIsAndroidTTSReady c st_ready)) = 1%nat.
Proof.
  cbn zeta.
  assert (H : is_Some (g_jvm st_ready) /\
              ~ fails CIsAndroidTTSReady (mkCtx 5%positive true env_good)
                  st_ready).
  { split; [exists 1%positive; reflexivity|apply ready_does_not_fail]. }
  split; [exact H|].
  exact (proj2 (proj2 (managed_method_called_once CIsAndroidTTSReady
                         (mkCtx 5%positive true env_good) st_ready)) H).
Defined.

Lemma managed_call_uses_own_handle_witness :
  let c := mkCtx 5%positive true env_good in
  let k := CSpeakAndroidText "hi" true in
  let e := EvCallStaticVoidMethod (Some 2%positive) (Some 12%positive)
             [JString "hi"; JBoolean 1] in
  let e_hello := EvCallStaticVoidMethod (Some 2%positive) (Some 12%positive)
                   [JString "hello world"; JBoolean 0] in
  let e_null := EvCallStaticVoidMethod (Some 2%positive) (Some 12%positive)
                  [JNull; JBoolean 1] in
  (e ∈ trace (run_call k c st_ready) /\
   call_method e = guard_of k (state_of (run_call k c st_ready)) /\
   call_args e = managed_args k) /\
  (e_hello ∈ trace (run_call (CSpeakAndroidText view_hello false) c st_ready)
   /\ call_args e_hello = managed_args (CSpeakAndroidText view_hello false))
  /\
  (e_null ∈ trace (run_call (CSpeakAndroidText view_default true) c st_ready)
   /\ call_args e_null = managed_args (CSpeakAndroidText view_default true)).
Proof.
  cbn zeta.
  set (c := mkCtx 5%positive true env_good).
  set (e := EvCallStaticVoidMethod (Some 2%positive) (Some 12%positive)
              [JString "hi"; JBoolean 1]).
  set (e_hello := EvCallStaticVoidMethod (Some 2%positive) (Some 12%positive)
                    [JString "hello world"; JBoolean 0]).
  set (e_null := EvCallStaticVoidMethod (Some 2%positive) (Some 12%positive)
                   [JNull; JBoolean 1]).
  assert (Hin : e ∈ trace (run_call (CSpeakAndroidText "hi" true) c
                             st_ready)).
  { vm_compute. do 4 apply list_elem_of_further. apply list_elem_of_here. }
  assert (Hin1 : e_hello ∈ trace (run_call
                                    (CSpeakAndroidText view_hello false) c
                                    st_ready)).
  { vm_compute. do 4 apply list_elem_of_further. apply list_elem_of_here. }
  assert (Hin2 : e_null ∈ trace (run_call
                                   (CSpeakAndroidText view_default true) c
                                   st_ready)).
  { vm_compute. do 4 apply list_elem_of_further. apply list_elem_of_here. }
  split; [|split].
  - split; [exact Hin|].
    pose proof (managed_call_uses_own_handle (CSpeakAndroidText "hi" true)
                  c st_ready e Hin eq_refl) as (_ & H1 & _ & H2 & _).
    exact (conj H1 H2).
  - split; [exact Hin1|].
    pose proof (managed_call_uses_own_handle
                  (CSpeakAndroidText view_hello false)
                  c st_ready e_hello Hin1 eq_refl) as (_ & _ & _ & H2 & _).
    exact H2.
  - split; [exact Hin2|].
    pose proof (managed_call_uses_own_handle
                  (CSpeakAndroidText view_default true)
                  c st_ready e_null Hin2 eq_refl) as (_ & _ & _ & H2 & _).
    exact H2.
Defined.

Lemma return_value_follows_managed_call_witness :
  let c := mkCtx 5%positive true env_odd in
  EvCallStaticBooleanMethod (Some 2%positive) (Some 14%positive) 2
    ∈ trace (run_call CIsAndroidTTSReady c st_ready) /\
  retval (run_call CIsAndroidTTSReady c st_ready) = Some (VBool false) /\
  EvCallStaticIntMethod (Some 3%positive) (Some 15%positive)
    [JInt 0; JFloat (S754_zero false); JFloat (S754_zero false); JLong 7] 42
    ∈ trace (run_call (CHandleAndroidGesture 0 (S754_zero false)
                         (S754_zero false) 7) c st_ready) /\
  retval (run_call (CHandleAndroidGesture 0 (S754_zero false)
                      (S754_zero false) 7) c st_ready) = Some (VInt 42).
Proof.
  cbn zeta.
  assert (H1 : EvCallStaticBooleanMethod (Some 2%positive)
                 (Some 14%positive) 2
               ∈ trace (run_call CIsAndroidTTSReady
                          (mkCtx 5%positive true env_odd) st_ready)).
  { vm_compute. do 3 apply list_elem_of_further. apply list_elem_of_here. }
  assert (H2 : EvCallStaticIntMethod (Some 3%positive) (Some 15%positive)
                 [JInt 0; JFloat (S754_zero false); JFloat (S754_zero false);
                  JLong 7] 42
               ∈ trace (run_call (CHandleAndroidGesture 0 (S754_zero false)
                                    (S754_zero false) 7)
                          (mkCtx 5%positive true env_odd) st_ready)).
  { vm_compute. do 3 apply list_elem_of_further. apply list_elem_of_here. }
  split; [exact H1|]. split.
  - exact (return_value_follows_managed_call _ _ _ _ H1 eq_refl).
  - split; [exact H2|].
    exact (return_value_follows_managed_call _ _ _ _ H2 eq_refl).
Defined.

Lemma string_reference_is_released_witness :
  let c := mkCtx 5%positive true env_good in
  let tr := trace (run_call (CSpeakAndroidText "hi" false) c st_ready) in
  count is_new_string tr = 1%nat /\
  count is_delete_ref tr = 1%nat /\
  count is_java_call tr = 1%nat.
Proof.
  cbn zeta.
  pose proof (string_reference_is_released (CSpeakAndroidText "hi" false)
                (mkCtx 5%positive true env_good) st_ready) as (H1 & _ & H3).
  assert (E : count is_new_string
                (trace (run_call (CSpeakAndroidText "hi" false)
                          (mkCtx 5%positive true env_good) st_ready)) = 1%nat)
    by reflexivity.
  split; [exact E|]. split; [now rewrite H1|exact (proj2 (H3 E))].
Defined.

Lemma InitializeJNIMethods_stores_every_lookup_witness :
  FindClass env_no_methods AccessibilityManager_class = Some 1%positive /\
  g_isScreenReaderEnabled st_half_ready = Some 11%positive /\
  g_isScreenReaderEnabled
    (state_of (InitializeJNIMethods env_no_methods st_half_ready)) = None.
Proof.
  assert (H : FindClass env_no_methods AccessibilityManager_class =
              Some 1%positive) by reflexivity.
  split; [exact H|]. split; [reflexivity|].
  exact (proj1 (proj2 (InitializeJNIMethods_stores_every_lookup
                         env_no_methods st_half_ready)) 1%positive H).
Defined.

Lemma failed_initialisation_clears_a_handle_witness :
  let c := mkCtx 5%positive true env_no_methods in
  let k := CHandleAndroidGesture 0 (S754_zero false) (S754_zero false) 7 in
  g_isScreenReaderEnabled st_half_ready = Some 11%positive /\
  guard_of k st_half_ready = None /\
  retval (run_call k c st_half_ready) = Some (VInt 0) /\
  g_isScreenReaderEnabled (state_of (run_call k c st_half_ready)) = None.
Proof.
  cbn zeta. split; [reflexivity|]. split; [reflexivity|].
  refine (failed_initialisation_clears_a_handle
            (CHandleAndroidGesture 0 (S754_zero false) (S754_zero false) 7)
            (mkCtx 5%positive true env_no_methods) st_half_ready 1%positive
            _ _ eq_refl eq_refl eq_refl).
  - exists 1%positive. reflexivity.
  - intros [Hn _]. apply Hn. exact five_in_five.
Defined.

Lemma InitializeJNIMethods_only_looks_up_witness :
  let r := InitializeJNIMethods env_good (loaded ∅) in
  retval r = Some true /\
  count is_find_class (trace r) = 3%nat /\
  count is_get_method (trace r) = 5%nat.
Proof.
  cbn zeta.
  assert (H : retval (InitializeJNIMethods env_good (loaded ∅)) = Some true)
    by reflexivity.
  split; [exact H|].
  pose proof (InitializeJNIMethods_only_looks_up env_good (loaded ∅))
    as (_ & _ & _ & _ & H5 & _).
  exact (H5 H).
Defined.

Lemma failed_utterance_is_remembered_witness :
  let h := host_of (mkCtx 5%positive false env_good) in
  (ToWideChar h EmptyString = None /\
   trace ((SpeakText Win32 h EmptyString true;;
           SpeakText Win32 h EmptyString false) (process_start ∅)) = []) /\
  (is_Some (g_jvm (loaded ∅)) /\
   fails (CSpeakAndroidText "hi" true) (thread h) (loaded ∅) /\
   count is_java_call
     (trace ((SpeakText Android h "hi" true;;
              SpeakText Android h "hi" false) (loaded ∅))) = 0%nat).
Proof.
  cbn zeta.
  set (h := host_of (mkCtx 5%positive false env_good)).
  assert (Hw : ToWideChar h EmptyString = None) by reflexivity.
  assert (Hf : fails (CSpeakAndroidText "hi" true) (thread h) (loaded ∅)).
  { left. split; [exact five_not_in_empty|reflexivity]. }
  split.
  - split; [exact Hw|].
    exact (proj1 (proj2 failed_utterance_is_remembered)
             h EmptyString true (process_start ∅) Hw).
  - split; [apply loaded_has_vm|]. split; [exact Hf|].
    exact (proj2 (proj2 failed_utterance_is_remembered)
             h "hi" true (loaded ∅) (loaded_has_vm ∅) Hf).
Defined.

Lemma shutdown_keeps_connection_and_memory_witness :
  let h := host_of (mkCtx 5%positive true env_good) in
  trace ((InitializeScreenReader Linux h;;
          ShutDownScreenReader Linux h;;
          SpeakText Linux h "hi" false) (process_start ∅)) =
    [EvSpd_open "DevilutionX" "DevilutionX" None SPD_MODE_SINGLE
       (Some 1%positive);
     EvSpd_close (Some 1%positive);
     EvSpd_say (Some 1%positive) SPD_TEXT "hi"].
Proof.
  cbn zeta.
  refine (proj1 shutdown_keeps_connection_and_memory
            (host_of (mkCtx 5%positive true env_good)) (process_start ∅)
            "hi" _).
  discriminate.
Defined.

Lemma text_is_cut_at_first_NUL_witness :
  let h := host_of (mkCtx 5%positive true env_good) in
  let t1 := ("a" ++ String Ascii.zero "b")%string in
  let t2 := ("a" ++ String Ascii.zero "c")%string in
  (exists z,
     trace (SpeakText Linux h t1 true (process_start ∅)) =
       [EvSpd_say None SPD_TEXT z] /\ cut_at_NUL t1 z) /\
  (EvNewStringUTF (Some "a") ∈ trace (SpeakText Android h t1 true st_ready)
   /\ exists z, Some "a" = Some z /\ cut_at_NUL t1 z) /\
  trace ((SpeakText Linux h t1 false;; SpeakText Linux h t2 false)
           (process_start ∅)) =
    [EvSpd_say None SPD_TEXT "a"; EvSpd_say None SPD_TEXT "a"].
Proof.
  cbn zeta.
  set (h := host_of (mkCtx 5%positive true env_good)).
  set (t1 := ("a" ++ String Ascii.zero "b")%string).
  assert (Hin : EvNewStringUTF (Some "a")
                ∈ trace (SpeakText Android h t1 true st_ready)).
  { vm_compute. do 2 apply list_elem_of_further. apply list_elem_of_here. }
  split; [|split].
  - exact (proj1 text_is_cut_at_first_NUL h (process_start ∅) t1 true
             (or_introl eq_refl)).
  - split; [exact Hin|].
    exact (proj1 (proj2 text_is_cut_at_first_NUL) h st_ready t1 true
             _ Hin).
  - refine (proj2 (proj2 text_is_cut_at_first_NUL)
              h (process_start ∅) t1
              ("a" ++ String Ascii.zero "c")%string _ _ eq_refl);
      discriminate.
Defined.

Lemma SpeakText_android_end_to_end_witness :
  let h := host_of (mkCtx 5%positive true env_good) in
  let tr := trace (SpeakText Android h "hi" true st_ready) in
  count is_java_call tr = 1%nat /\
  exists cls m,
    EvCallStaticVoidMethod cls (Some m) [JString "hi"; JBoolean JNI_TRUE]
    ∈ tr.
Proof.
  cbn zeta.
  refine (SpeakText_android_end_to_end
            (host_of (mkCtx 5%positive true env_good)) "hi" true st_ready
            (or_introl eq_refl) _ _).
  - exists 1%positive. reflexivity.
  - apply ready_does_not_fail.
Defined.

Lemma speak_entry_point_witness :
  let c := mkCtx 5%positive true env_good in
  let r :=
    Java_org_diasurgical_devilutionx_AndroidTextToSpeech_speak
      (fun s => Some s) c (Some "hi") 2 st_ready in
  is_Some (g_jvm st_ready) /\
  (exists rest,
     ntrace r =
       NvGetStringUTFChars "hi" (Some "hi") ::
       NvBridge (Enter (CSpeakAndroidText "hi" false)) :: rest) /\
  ncount is_release_chars (ntrace r) = ncount is_get_chars (ntrace r).
Proof.
  cbn zeta.
  assert (Hvm : is_Some (g_jvm st_ready)) by (exists 1%positive; reflexivity).
  pose proof (speak_entry_point (fun s => Some s)
                (mkCtx 5%positive true env_good) (Some "hi") 2 st_ready)
    as (_ & _ & H3 & H4 & _).
  split; [exact Hvm|]. split.
  - exact (H3 "hi" "hi" eq_refl eq_refl).
  - exact (proj2 (H4 Hvm)).
Defined.

Lemma isReady_entry_point_witness :
  let c := mkCtx 5%positive true env_good in
  let r :=
    Java_org_diasurgical_devilutionx_AndroidTextToSpeech_isReady c st_ready in
  (exists cls m, EvCallStaticBooleanMethod cls m JNI_TRUE ∈ trace r) /\
  retval r = Some JNI_TRUE.
Proof.
  cbn zeta.
  assert (H : exists cls m,
            EvCallStaticBooleanMethod cls m JNI_TRUE
            ∈ trace (Java_org_diasurgical_devilutionx_AndroidTextToSpeech_isReady
                       (mkCtx 5%positive true env_good) st_ready)).
  { exists (Some 2%positive), (Some 14%positive). vm_compute.
    do 3 apply list_elem_of_further. apply list_elem_of_here. }
  split; [exact H|].
  exact (proj2 (proj2 (isReady_entry_point
                         (mkCtx 5%positive true env_good) st_ready)) H).
Defined.

Lemma handleGesture_entry_point_narrows_time_witness :
  let c := mkCtx 5%positive true env_good in
  - 2 ^ 63 <= 2 ^ 31 < 2 ^ 63 /\
  ~ (- 2 ^ 31 <= 2 ^ 31 < 2 ^ 31) /\
  exists time',
    time' <> 2 ^ 31 /\ - 2 ^ 31 <= time' < 2 ^ 31 /\
    Java_org_diasurgical_devilutionx_GestureDetector_handleGesture
      ILP32 c 0 (S754_zero false) (S754_zero false) (2 ^ 31) =
    HandleAndroidGesture c 0 (S754_zero false) (S754_zero false) time'.
Proof.
  cbn zeta.
  assert (Hr : - 2 ^ 63 <= 2 ^ 31 < 2 ^ 63) by (vm_compute; split; congruence).
  assert (Ho : ~ (- 2 ^ 31 <= 2 ^ 31 < 2 ^ 31)) by lia.
  split; [exact Hr|]. split; [exact Ho|].
  exact (proj2 (handleGesture_entry_point_narrows_time ILP32
                  (mkCtx 5%positive true env_good) 0 (S754_zero false)
                  (S754_zero false) (2 ^ 31) Hr) eq_refl Ho).
Defined.
